(** * mastra-qortex: the remote-procedure adapter layer

    A shallow embedding of [src/client.ts] (class [QortexMcpClient]) and
    [src/vector.ts] (class [QortexVector]) and the properties of the
    natural-language specification that concern them.

    JavaScript values are an inductive type with [undefined] and [null] kept
    apart, numbers are IEEE-754 binary64 floats, and a JS object is a finite
    map from property names to values in which a key bound to [undefined] is
    distinct from a missing key.  Methods run in a state-and-exception monad
    over the fields of the MCP client, the outside world (the MCP SDK and the
    process environment, an interface) and a history of the calls that crossed
    the boundary. *)

From Stdlib Require Import Floats.
From stdpp Require Import gmap strings list fin_maps pretty.

#[local] Set Warnings "-register-all".

(* ===================================================================== *)
(** ** JavaScript values                                                   *)
(* ===================================================================== *)

Inductive JsVal : Type :=
  | JUndefined
  | JNull
  | JBool (b : bool)
  | JNum (n : float)
  | JStr (s : string)
  | JArr (items : list JsVal)
  | JObj (fields : gmap string JsVal).

(** An object literal [{ k1: v1, k2: v2, ... }], keys in source order. *)
Definition obj (l : list (string * JsVal)) : gmap string JsVal := list_to_map l.

(** What a thrown value is: [new Error(message)] of the adapter itself, the
    [TypeError] of reading a property of [null] or [undefined] or of
    converting an object that has no usable [toString] (tagged with the name
    at fault), the [SyntaxError] of [JSON.parse], and whatever the SDK
    rejects with. *)
Inductive Failure : Type :=
  | Error (message : string)
  | TypeError (reading : string)
  | SyntaxError (text : string)
  | SdkError (reason : string).

Inductive Outcome (A : Type) : Type :=
  | Return (a : A)
  | Throw (e : Failure).
Arguments Return {A} a.
Arguments Throw {A} e.

(** The built-ins of the runtime the code calls and that are not part of the
    repository: [JSON.parse] and the decimal printing of a number. *)
Class JsRuntime : Type := {
  JSON_parse : string -> Outcome JsVal;
  Number_toString : float -> string
}.

(** [if (v)], [!v]: the ToBoolean conversion. *)
Definition truthy (v : JsVal) : bool :=
  match v with
  | JUndefined | JNull => false
  | JBool b => b
  | JNum n => negb (PrimFloat.is_zero n || PrimFloat.is_nan n)
  | JStr s => negb (String.eqb s "")
  | JArr _ | JObj _ => true
  end.

(** [a ?? b] *)
Definition nullish (a b : JsVal) : JsVal :=
  match a with
  | JUndefined | JNull => b
  | _ => a
  end.

(** A default parameter [x = d] (also in a destructuring pattern): only
    [undefined] triggers the default, [null] does not. *)
Definition param_default (a d : JsVal) : JsVal :=
  match a with
  | JUndefined => d
  | _ => a
  end.

(** [o.k] on an object: a missing key reads as [undefined]. *)
Definition prop (o : gmap string JsVal) (k : string) : JsVal :=
  default JUndefined (o !! k).

(** [v.k] on any value.  Reading a property of [null] or [undefined] throws;
    on the other primitives and on arrays the names the adapter reads
    ([error], [node], [results], ...) are not defined and read as
    [undefined]. *)
Definition get_prop (v : JsVal) (k : string) : Outcome JsVal :=
  match v with
  | JUndefined | JNull => Throw (TypeError k)
  | JObj o => Return (prop o k)
  | _ => Return JUndefined
  end.

Section ToString.
Context `{JsRuntime}.

(** The ToString conversion, which [new Error(x)] applies to its argument.
    An array is joined with commas, left to right, [undefined] and [null]
    elements as the empty text.  A data object converts through
    [Object.prototype.toString] unless it has a property [toString] of its
    own: no value of this type is callable, [valueOf] then gives back the
    object, and the conversion throws a [TypeError]. *)
Fixpoint ToString (v : JsVal) : Outcome string :=
  match v with
  | JUndefined => Return "undefined"
  | JNull => Return "null"
  | JBool true => Return "true"
  | JBool false => Return "false"
  | JNum n => Return (Number_toString n)
  | JStr s => Return s
  | JArr l =>
      match
        (fix join (l : list JsVal) : Outcome (list string) :=
           match l with
           | [] => Return []
           | x :: l' =>
               match
                 match x with
                 | JUndefined | JNull => Return ""
                 | _ => ToString x
                 end
               with
               | Throw e => Throw e
               | Return t =>
                   match join l' with
                   | Throw e => Throw e
                   | Return ts => Return (t :: ts)
                   end
               end
           end) l
      with
      | Throw e => Throw e
      | Return ts => Return (String.concat "," ts)
      end
  | JObj o =>
      match o !! "toString" with
      | Some _ => Throw (TypeError "toString")
      | None => Return "[object Object]"
      end
  end.

(** What [throw new Error(x)] throws: the [Error] whose message is [x] as a
    string, or the [TypeError] of a conversion that fails. *)
Definition thrown_by_new_Error (x : JsVal) : Failure :=
  match ToString x with
  | Return message => Error message
  | Throw e => e
  end.
End ToString.

(* ===================================================================== *)
(** ** The MCP SDK, seen from the client                                  *)
(* ===================================================================== *)

(** [new StdioClientTransport({ command, args, env })] *)
Record StdioClientTransport : Type := {
  command : string;
  args : list string;
  env : gmap string string
}.

(** An SDK [Client]: one handed in through [config.mcpClient], or the one
    [connect] builds with [new Client({ name, version }, ...)]. *)
Inductive Client : Type :=
  | SuppliedClient (handle : nat)
  | NewClient (name version : string).

Record QortexMcpClientConfig : Type := {
  serverCommand : option string;
  serverArgs : option (list string);
  serverEnv : option (gmap string string);
  mcpClient : option Client
}.

(** A content block of a tool result, [{ type: string; text?: string }]. *)
Record ContentBlock : Type := {
  type : string;
  text : option string
}.

(** The envelope [client.callTool] resolves to; [content] may be missing. *)
Record CallToolResult : Type := {
  content : option (list ContentBlock)
}.

(** The outside world: the environment of the process and the three SDK
    calls the client makes, each of which may reject and may change the world. *)
Class McpSdk (World : Type) : Type := {
  process_env : World -> list (string * option string);
  client_connect :
    Client -> StdioClientTransport -> World -> Outcome unit * World;
  client_callTool :
    Client -> string -> gmap string JsVal -> World ->
    Outcome CallToolResult * World;
  transport_close : StdioClientTransport -> World -> Outcome unit * World
}.

(** What crossed the boundary, in order.  [EvConnect], [EvRequest] and
    [EvClose] are the SDK calls with what they answered; [EvCallTool] closes
    every [QortexMcpClient.callTool] with what it handed back to its caller. *)
Inductive Event : Type :=
  | EvConnect (c : Client) (t : StdioClientTransport) (r : Outcome unit)
  | EvRequest (c : Client) (name : string) (arguments : gmap string JsVal)
      (r : Outcome CallToolResult)
  | EvClose (t : StdioClientTransport) (r : Outcome unit)
  | EvCallTool (name : string) (arguments : gmap string JsVal)
      (r : Outcome JsVal).

(** The private fields of [QortexMcpClient]. *)
Record QortexMcpClient : Type := {
  client : option Client;
  transport : option StdioClientTransport;
  config : QortexMcpClientConfig;
  _connected : bool
}.

Record State (World : Type) : Type := {
  mcp : QortexMcpClient;
  world : World;
  history : list Event
}.
Arguments mcp {World} _.
Arguments world {World} _.
Arguments history {World} _.
Arguments Build_State {World} _ _ _.

(* ===================================================================== *)
(** ** The monad of the methods                                            *)
(* ===================================================================== *)

Section Monad.
Context {World : Type}.

(** A method body: it ends in a value or a thrown failure, and the
    mutations made before a throw stay. *)
Definition M (A : Type) : Type := State World -> Outcome A * State World.

Definition ret {A} (a : A) : M A := fun s => (Return a, s).

Definition throw {A} (e : Failure) : M A := fun s => (Throw e, s).

Definition bind {A B} (m : M A) (k : A -> M B) : M B :=
  fun s =>
    match m s with
    | (Return a, s') => k a s'
    | (Throw e, s') => (Throw e, s')
    end.

(** A pure computation that may throw. *)
Definition lift {A} (r : Outcome A) : M A := fun s => (r, s).

Definition gets {A} (f : State World -> A) : M A := fun s => (Return (f s), s).

Definition set_mcp (f : QortexMcpClient -> QortexMcpClient) : M unit :=
  fun s => (Return tt, Build_State (f (mcp s)) (world s) (history s)).

(** A call into the SDK: the world answers and moves on. *)
Definition sdk {A} (step : World -> Outcome A * World)
    (ev : Outcome A -> Event) : M A :=
  fun s =>
    let '(r, w) := step (world s) in
    (r, Build_State (mcp s) w (history s ++ [ev r])).
End Monad.
Arguments M World A : clear implicits.

Notation "'let!' x ':=' m 'in' k" := (bind m (fun x => k))
  (at level 10, x name, m at level 100, k at level 200,
   format "'[v' 'let!'  x  ':='  m  'in' '/' k ']'").

(* ===================================================================== *)
(** ** src/client.ts: class QortexMcpClient                               *)
(* ===================================================================== *)

Module QortexMcpClient.
Section Methods.
Context {World : Type} `{McpSdk World} `{JsRuntime}.

(** [constructor(config = {})]: a supplied client is adopted as already
    connected. *)
Definition constructor (cfg : QortexMcpClientConfig) : QortexMcpClient :=
  match mcpClient cfg with
  | Some c =>
      {| client := Some c; transport := None; config := cfg;
         _connected := true |}
  | None =>
      {| client := None; transport := None; config := cfg;
         _connected := false |}
  end.

(** Assignments to [this.transport], [this.client], [this._connected]. *)
Definition set_transport (t : option StdioClientTransport) : M World unit :=
  set_mcp (fun m =>
    {| client := client m; transport := t; config := config m;
       _connected := _connected m |}).

Definition set_client (c : option Client) : M World unit :=
  set_mcp (fun m =>
    {| client := c; transport := transport m; config := config m;
       _connected := _connected m |}).

Definition set_connected (b : bool) : M World unit :=
  set_mcp (fun m =>
    {| client := client m; transport := transport m; config := config m;
       _connected := b |}).

(** [get connected()] *)
Definition connected : M World bool := gets (fun s => _connected (mcp s)).

(** The environment handed to the child: the defined entries of
    [process.env], then [Object.assign(env, serverEnv)]. *)
Definition child_env (penv : list (string * option string))
    (serverEnv : option (gmap string string)) : gmap string string :=
  let env :=
    foldl (fun env kv =>
             match kv.2 with
             | Some v => <[kv.1 := v]> env
             | None => env
             end) ∅ penv in
  match serverEnv with
  | Some e => e ∪ env
  | None => env
  end.

Definition connect : M World unit :=
  let! c := connected in
  if c then ret tt else
  let! cfg := gets (fun s => config (mcp s)) in
  let command := default "uvx" (serverCommand cfg) in
  let args := default ["qortex"; "mcp-serve"] (serverArgs cfg) in
  let! penv := gets (fun s => process_env (world s)) in
  let env := child_env penv (serverEnv cfg) in
  let t := {| command := command; args := args; env := env |} in
  let! _ := set_transport (Some t) in
  let c := NewClient "mastra-qortex" "0.1.0" in
  let! _ := set_client (Some c) in
  let! _ := sdk (client_connect c t) (EvConnect c t) in
  set_connected true.

Definition disconnect : M World unit :=
  let! t := gets (fun s => transport (mcp s)) in
  let! _ :=
    match t with
    | Some t =>
        let! _ := sdk (transport_close t) (EvClose t) in
        set_transport None
    | None => ret tt
    end in
  let! _ := set_client None in
  set_connected false.

(** Ghost: closes a [callTool] in the history with what it handed back. *)
Definition observed {A} (ev : Outcome A -> Event) (m : M World A) : M World A :=
  fun s =>
    let '(r, s') := m s in
    (r, Build_State (mcp s') (world s') (history s' ++ [ev r])).

Definition callTool (name : string) (args : gmap string JsVal) : M World JsVal :=
  observed (EvCallTool name args) (
    let! c := connected in
    let! _ := if negb c then connect else ret tt in
    let! cl := gets (fun s => client (mcp s)) in
    match cl with
    | None => throw (TypeError "callTool")
    | Some cl =>
        let! result :=
          sdk (client_callTool cl name args) (EvRequest cl name args) in
        (* MCP tool results come as content blocks *)
        match content result with
        | None => ret (JObj ∅)
        | Some content =>
            if (length content =? 0)%nat then ret (JObj ∅) else
            let textBlock :=
              find (fun c => String.eqb (type c) "text") content in
            match textBlock with
            | Some {| text := Some t |} =>
                if String.eqb t "" then ret (JObj ∅)
                else lift (JSON_parse t)
            | _ => ret (JObj ∅)
            end
        end
    end).
End Methods.
End QortexMcpClient.

(* ===================================================================== *)
(** ** src/vector.ts: class QortexVector                                  *)
(* ===================================================================== *)

Module QortexVector.
Section Methods.
Context {World : Type} `{McpSdk World} `{JsRuntime}.

Definition connect : M World unit := QortexMcpClient.connect.

Definition disconnect : M World unit := QortexMcpClient.disconnect.

(** [if (result.error) { throw new Error(result.error as string); }] *)
Definition throw_on_error (result : JsVal) : M World unit :=
  let! error := lift (get_prop result "error") in
  if truthy error then
    let! message := lift (ToString error) in
    throw (Error message)
  else ret tt.

(* ------------------------------------------------------------------- *)
(* MastraVector abstract methods (9 required)                          *)
(* ------------------------------------------------------------------- *)

Definition createIndex (params : gmap string JsVal) : M World JsVal :=
  let indexName := prop params "indexName" in
  let dimension := prop params "dimension" in
  let metric := param_default (prop params "metric") (JStr "cosine") in
  let! result :=
    QortexMcpClient.callTool "qortex_vector_create_index"
      (obj [("index_name", indexName);
            ("dimension", dimension);
            ("metric", metric)]) in
  let! _ := throw_on_error result in
  ret JUndefined.

Definition listIndexes : M World JsVal :=
  let! result :=
    QortexMcpClient.callTool "qortex_vector_list_indexes" (obj []) in
  lift (get_prop result "indexes").

Definition describeIndex (params : gmap string JsVal) : M World JsVal :=
  let indexName := prop params "indexName" in
  let! result :=
    QortexMcpClient.callTool "qortex_vector_describe_index"
      (obj [("index_name", indexName)]) in
  let! _ := throw_on_error result in
  let! dimension := lift (get_prop result "dimension") in
  let! count := lift (get_prop result "count") in
  let! metric := lift (get_prop result "metric") in
  ret (JObj (obj [("dimension", dimension);
                  ("count", count);
                  ("metric", metric)])).

Definition deleteIndex (params : gmap string JsVal) : M World JsVal :=
  let indexName := prop params "indexName" in
  let! result :=
    QortexMcpClient.callTool "qortex_vector_delete_index"
      (obj [("index_name", indexName)]) in
  let! _ := throw_on_error result in
  ret JUndefined.

Definition upsert (params : gmap string JsVal) : M World JsVal :=
  let indexName := prop params "indexName" in
  let vectors := prop params "vectors" in
  let metadata := prop params "metadata" in
  let ids := prop params "ids" in
  let! result :=
    QortexMcpClient.callTool "qortex_vector_upsert"
      (obj [("index_name", indexName);
            ("vectors", vectors);
            ("metadata", nullish metadata JUndefined);
            ("ids", nullish ids JUndefined)]) in
  let! _ := throw_on_error result in
  lift (get_prop result "ids").

Definition query (params : gmap string JsVal) : M World JsVal :=
  let indexName := prop params "indexName" in
  let queryVector := prop params "queryVector" in
  let topK := param_default (prop params "topK") (JNum 10) in
  let filter := prop params "filter" in
  let includeVector :=
    param_default (prop params "includeVector") (JBool false) in
  let! result :=
    QortexMcpClient.callTool "qortex_vector_query"
      (obj [("index_name", indexName);
            ("query_vector", queryVector);
            ("top_k", topK);
            ("filter", nullish filter JUndefined);
            ("include_vector", includeVector)]) in
  let! _ := throw_on_error result in
  let! results := lift (get_prop result "results") in
  ret (nullish results (JArr [])).

Definition updateVector (params : gmap string JsVal) : M World JsVal :=
  let indexName := prop params "indexName" in
  let id := prop params "id" in
  let filter := prop params "filter" in
  let update := prop params "update" in
  let! vector := lift (get_prop update "vector") in
  let! metadata := lift (get_prop update "metadata") in
  let! result :=
    QortexMcpClient.callTool "qortex_vector_update"
      (obj [("index_name", indexName);
            ("id", nullish id JUndefined);
            ("filter", nullish filter JUndefined);
            ("vector", nullish vector JUndefined);
            ("metadata", nullish metadata JUndefined)]) in
  let! _ := throw_on_error result in
  ret JUndefined.

Definition deleteVector (params : gmap string JsVal) : M World JsVal :=
  let indexName := prop params "indexName" in
  let id := prop params "id" in
  let! result :=
    QortexMcpClient.callTool "qortex_vector_delete"
      (obj [("index_name", indexName); ("id", id)]) in
  let! _ := throw_on_error result in
  ret JUndefined.

Definition deleteVectors (params : gmap string JsVal) : M World JsVal :=
  let indexName := prop params "indexName" in
  let ids := prop params "ids" in
  let filter := prop params "filter" in
  let! result :=
    QortexMcpClient.callTool "qortex_vector_delete_many"
      (obj [("index_name", indexName);
            ("ids", nullish ids JUndefined);
            ("filter", nullish filter JUndefined)]) in
  let! _ := throw_on_error result in
  ret JUndefined.

(* ------------------------------------------------------------------- *)
(* Qortex extras: graph-enhanced capabilities                          *)
(* ------------------------------------------------------------------- *)

Definition textQuery (context options : JsVal) : M World JsVal :=
  let options := param_default options (JObj ∅) in
  let! domains := lift (get_prop options "domains") in
  let! topK := lift (get_prop options "topK") in
  let! minConfidence := lift (get_prop options "minConfidence") in
  let! mode := lift (get_prop options "mode") in
  let! result :=
    QortexMcpClient.callTool "qortex_query"
      (obj [("context", context);
            ("domains", nullish domains JUndefined);
            ("top_k", nullish topK (JNum 20));
            ("min_confidence", nullish minConfidence (JNum 0));
            ("mode", nullish mode (JStr "auto"))]) in
  ret result.

Definition explore (nodeId depth : JsVal) : M World JsVal :=
  let depth := param_default depth (JNum 1) in
  let! result :=
    QortexMcpClient.callTool "qortex_explore"
      (obj [("node_id", nodeId); ("depth", depth)]) in
  let! node := lift (get_prop result "node") in
  match node with
  | JNull => ret JNull
  | _ => ret result
  end.

Definition getRules (options : JsVal) : M World JsVal :=
  let options := param_default options (JObj ∅) in
  let! domains := lift (get_prop options "domains") in
  let! conceptIds := lift (get_prop options "conceptIds") in
  let! categories := lift (get_prop options "categories") in
  let! includeDerived := lift (get_prop options "includeDerived") in
  let! minConfidence := lift (get_prop options "minConfidence") in
  let! result :=
    QortexMcpClient.callTool "qortex_rules"
      (obj [("domains", nullish domains JUndefined);
            ("concept_ids", nullish conceptIds JUndefined);
            ("categories", nullish categories JUndefined);
            ("include_derived", nullish includeDerived (JBool true));
            ("min_confidence", nullish minConfidence (JNum 0))]) in
  ret result.

Definition feedback (queryId outcomes source : JsVal) : M World JsVal :=
  let source := param_default source (JStr "mastra") in
  let! result :=
    QortexMcpClient.callTool "qortex_feedback"
      (obj [("query_id", queryId);
            ("outcomes", outcomes);
            ("source", source)]) in
  ret result.
End Methods.
End QortexVector.

(* ===================================================================== *)
(** ** The operations as data, and what the history shows                 *)
(* ===================================================================== *)

(** The nine storage operations and the four retrieval extensions, each with
    the arguments of its call. *)
Inductive Operation : Type :=
  | CreateIndex (params : gmap string JsVal)
  | ListIndexes
  | DescribeIndex (params : gmap string JsVal)
  | DeleteIndex (params : gmap string JsVal)
  | Upsert (params : gmap string JsVal)
  | Query (params : gmap string JsVal)
  | UpdateVector (params : gmap string JsVal)
  | DeleteVector (params : gmap string JsVal)
  | DeleteVectors (params : gmap string JsVal)
  | TextQuery (context options : JsVal)
  | Explore (nodeId depth : JsVal)
  | GetRules (options : JsVal)
  | Feedback (queryId outcomes source : JsVal).

Definition is_storage (op : Operation) : bool :=
  match op with
  | TextQuery _ _ | Explore _ _ | GetRules _ | Feedback _ _ _ => false
  | _ => true
  end.

Definition is_extension (op : Operation) : bool := negb (is_storage op).

(** One finished [callTool], as the history shows it. *)
Record ToolCall : Type := {
  tool : string;
  arguments : gmap string JsVal;
  answer : Outcome JsVal
}.

Definition tool_calls (h : list Event) : list ToolCall :=
  omap (fun e =>
          match e with
          | EvCallTool n a r =>
              Some {| tool := n; arguments := a; answer := r |}
          | _ => None
          end) h.

(** One request handed to the SDK's [client.callTool]. *)
Record Request : Type := {
  via : Client;
  method : string;
  payload : gmap string JsVal;
  response : Outcome CallToolResult
}.

Definition requests (h : list Event) : list Request :=
  omap (fun e =>
          match e with
          | EvRequest c n a r =>
              Some {| via := c; method := n; payload := a; response := r |}
          | _ => None
          end) h.

Section Observations.
Context {World : Type} `{McpSdk World} `{JsRuntime}.

Definition perform (op : Operation) : M World JsVal :=
  match op with
  | CreateIndex p => QortexVector.createIndex p
  | ListIndexes => QortexVector.listIndexes
  | DescribeIndex p => QortexVector.describeIndex p
  | DeleteIndex p => QortexVector.deleteIndex p
  | Upsert p => QortexVector.upsert p
  | Query p => QortexVector.query p
  | UpdateVector p => QortexVector.updateVector p
  | DeleteVector p => QortexVector.deleteVector p
  | DeleteVectors p => QortexVector.deleteVectors p
  | TextQuery c o => QortexVector.textQuery c o
  | Explore n d => QortexVector.explore n d
  | GetRules o => QortexVector.getRules o
  | Feedback q o s => QortexVector.feedback q o s
  end.

(** The events a run of [m] from [s] appends to the history. *)
Definition emitted {A} (m : M World A) (s : State World) : list Event :=
  drop (length (history s)) (history (m s).2).

(** The [callTool]s a run of [m] from [s] makes. *)
Definition issued {A} (m : M World A) (s : State World) : list ToolCall :=
  tool_calls (emitted m s).

(** The requests a run of [m] from [s] hands to the SDK. *)
Definition forwarded {A} (m : M World A) (s : State World) : list Request :=
  requests (emitted m s).

(** A run of [m] from [s] made one [callTool], which handed back the decoded
    payload [v], and the run ended in [r]. *)
Definition round_trip {A} (m : M World A) (s : State World)
    (v : JsVal) (r : Outcome A) : Prop :=
  (m s).1 = r /\
  exists n a, issued m s = [{| tool := n; arguments := a; answer := Return v |}].

(** [m] leaves the history as it is. *)
Definition silent {A} (m : M World A) : Prop :=
  forall s, history (m s).2 = history s.

(** The test of [content.find]: [c.type === "text"]. *)
Definition is_text (c : ContentBlock) : bool := String.eqb (type c) "text".

(** What [callTool] does with the envelope of the SDK, as a function. *)
Definition decode (env : CallToolResult) : Outcome JsVal :=
  match content env with
  | None => Return (JObj ∅)
  | Some parts =>
      match find is_text parts with
      | Some {| text := Some t |} =>
          if String.eqb t "" then Return (JObj ∅) else JSON_parse t
      | _ => Return (JObj ∅)
      end
  end.

(** How a run that checks the [error] field ends on a payload: it throws
    [new Error] of the field when it is truthy (the [Error] with the field
    as a string for its message, or the [TypeError] of a field that does not
    convert), with the remote string as the whole message when the field is
    one, and returns when the field is missing or falsy. *)
Definition surfaces_error (o : gmap string JsVal) (r : Outcome JsVal) : Prop :=
  (truthy (prop o "error") = true ->
     r = Throw (thrown_by_new_Error (prop o "error"))) /\
  (forall message, truthy (prop o "error") = true ->
     ToString (prop o "error") = Return message ->
     r = Throw (Error message)) /\
  (forall msg, o !! "error" = Some (JStr msg) -> msg <> "" ->
     r = Throw (Error msg)) /\
  (o !! "error" = None -> exists v, r = Return v) /\
  (truthy (prop o "error") = false -> exists v, r = Return v).

(** A run of [m] from [s] makes one [callTool], of the tool [n]; whatever
    request reaches the SDK in the run is for [n] with the same argument
    mapping; and that mapping satisfies [P]. *)
Definition calls {A} (m : M World A) (s : State World) (n : string)
    (P : gmap string JsVal -> Prop) : Prop :=
  exists a r,
    issued m s = [{| tool := n; arguments := a; answer := r |}] /\
    Forall (fun q => method q = n /\ payload q = a) (forwarded m s) /\
    P a.

(** An optional field as the mapping [a] carries it under [key]: left unset
    it is there, bound to [undefined]; supplied (an empty array or object
    included) it is there as supplied. *)
Definition optional_sent (supplied : JsVal) (a : gmap string JsVal)
    (key : string) : Prop :=
  (supplied = JUndefined -> a !! key = Some JUndefined) /\
  (supplied <> JUndefined -> supplied <> JNull -> a !! key = Some supplied).

End Observations.

(* ===================================================================== *)
(** ** A scripted world, as the unit tests mock the SDK                   *)
(* ===================================================================== *)

(** Every SDK call gets the answer the script holds for it (vitest's
    [mockResolvedValue] / [mockRejectedValue]). *)
Record Script : Type := {
  connect_answer : Outcome unit;
  callTool_answer : Outcome CallToolResult;
  close_answer : Outcome unit
}.

#[export] Instance script_sdk : McpSdk Script := {
  process_env _ := [("PATH", Some "/usr/bin"); ("EDITOR", None)];
  client_connect _ _ w := (connect_answer w, w);
  client_callTool _ _ _ w := (callTool_answer w, w);
  transport_close _ w := (close_answer w, w)
}.

(** The double quote, and JSON texts built with it. *)
Definition dq : string := String (Ascii.ascii_of_nat 34) "".

Definition quoted (s : string) : string := dq +:+ s +:+ dq.

(** [{"k":v}] for a key and the text of a value. *)
Definition member (k v : string) : string := "{" +:+ quoted k +:+ ":" +:+ v +:+ "}".

Definition error_text (msg : string) : string := member "error" (quoted msg).

Definition null_node_text : string := member "node" "null".

Definition two_results_text : string :=
  member "results"
    ("[" +:+ member "id" (quoted "v1") +:+ "," +:+
            member "id" (quoted "v2") +:+ "]").

Definition two_results : JsVal :=
  JArr [JObj (obj [("id", JStr "v1")]); JObj (obj [("id", JStr "v2")])].

(** What [JSON.parse] gives on the texts the examples use. *)
Definition parse_table : list (string * Outcome JsVal) :=
  [ ("", Throw (SyntaxError ""));
    ("{}", Return (JObj (obj [])));
    ("null", Return JNull);
    (error_text "Dimension mismatch",
       Return (JObj (obj [("error", JStr "Dimension mismatch")])));
    (error_text "", Return (JObj (obj [("error", JStr "")])));
    (error_text "Unknown query_id",
       Return (JObj (obj [("error", JStr "Unknown query_id")])));
    (null_node_text, Return (JObj (obj [("node", JNull)])));
    (two_results_text, Return (JObj (obj [("results", two_results)]))) ].

Definition table_parse (t : string) : Outcome JsVal :=
  match find (fun e => String.eqb e.1 t) parse_table with
  | Some e => e.2
  | None => Throw (SyntaxError t)
  end.

(** Decimal printing, exact on the integers from 0 to 100. *)
Definition small_toString (n : float) : string :=
  match find (fun i => PrimFloat.eqb n (PrimFloat.of_uint63 (Uint63.of_Z (Z.of_nat i))))
             (seq 0 101) with
  | Some i => pretty i
  | None => if PrimFloat.is_nan n then "NaN" else "Infinity"
  end.

#[export] Instance table_runtime : JsRuntime := {
  JSON_parse := table_parse;
  Number_toString := small_toString
}.

(** [mockResponse(data)] of the tests, on the JSON text of [data]. *)
Definition mockResponse (t : string) : CallToolResult :=
  {| content := Some [{| type := "text"; text := Some t |}] |}.

Definition answering (r : CallToolResult) : Script :=
  {| connect_answer := Return tt; callTool_answer := Return r;
     close_answer := Return tt |}.

(** The fixture of the unit tests: a [QortexVector] built around a supplied,
    mocked client. *)
Definition fixture (w : Script) : State Script :=
  {| mcp := QortexMcpClient.constructor
              {| serverCommand := None; serverArgs := None;
                 serverEnv := None; mcpClient := Some (SuppliedClient 0) |};
     world := w;
     history := [] |}.

(** A client built with no supplied channel: it spawns on first use. *)
Definition spawning (w : Script) : State Script :=
  {| mcp := QortexMcpClient.constructor
              {| serverCommand := None; serverArgs := None;
                 serverEnv := None; mcpClient := None |};
     world := w;
     history := [] |}.

(** A script in which the child process cannot be spawned. *)
Definition failing_spawn : Script :=
  {| connect_answer := Throw (SdkError "spawn uvx ENOENT");
     callTool_answer := Return (mockResponse "{}");
     close_answer := Return tt |}.

(** An envelope whose only part is a text part with the empty text. *)
Definition empty_text_envelope : CallToolResult :=
  {| content := Some [{| type := "text"; text := Some "" |}] |}.

(** Arguments as the unit tests pass them. *)
Definition docs_384 : gmap string JsVal :=
  obj [("indexName", JStr "docs"); ("dimension", JNum 384)].

Definition query_top1 : gmap string JsVal :=
  obj [("indexName", JStr "docs");
       ("queryVector", JArr [JNum 1; JNum 0; JNum 0]);
       ("topK", JNum 1)].


Definition upsert_one : gmap string JsVal :=
  obj [("indexName", JStr "docs");
       ("vectors", JArr [JArr [JNum 1; JNum 0; JNum 0]])].

Definition two_outcomes : JsVal :=
  JObj (obj [("i-1", JStr "accepted"); ("i-2", JStr "rejected")]).

Definition error_payload (msg : string) : gmap string JsVal :=
  obj [("error", JStr msg)].

(** A script whose remote rejects every request. *)
Definition rejecting : Script :=
  {| connect_answer := Return tt;
     callTool_answer := Throw (SdkError "Connection closed");
     close_answer := Return tt |}.

(** An envelope with an image part, then two text parts. *)
Definition mixed_envelope : CallToolResult :=
  {| content :=
       Some [{| type := "image"; text := None |};
             {| type := "text"; text := Some null_node_text |};
             {| type := "text"; text := Some "{}" |}] |}.

(** The payload of the test "returns index stats", with a field the adapter
    does not read. *)
Definition stats_text : string :=
  "{" +:+ quoted "dimension" +:+ ":384," +:+ quoted "count" +:+ ":42," +:+
  quoted "metric" +:+ ":" +:+ quoted "cosine" +:+ "," +:+
  quoted "index_name" +:+ ":" +:+ quoted "docs" +:+ "}".

Definition stats_payload : gmap string JsVal :=
  obj [("dimension", JNum 384); ("count", JNum 42);
       ("metric", JStr "cosine"); ("index_name", JStr "docs")].

(** [JSON.parse] on two more texts. *)
Definition wider_parse (t : string) : Outcome JsVal :=
  if String.eqb t "[]" then Return (JArr [])
  else if String.eqb t stats_text then Return (JObj stats_payload)
  else table_parse t.

Definition wider_runtime : JsRuntime :=
  {| JSON_parse := wider_parse; Number_toString := small_toString |}.

Definition update_reviewed : gmap string JsVal :=
  obj [("indexName", JStr "docs"); ("id", JStr "v1");
       ("update", JObj (obj [("metadata",
                              JObj (obj [("reviewed", JBool true)]))]))].

Definition supplied_config : QortexMcpClientConfig :=
  {| serverCommand := None; serverArgs := None; serverEnv := None;
     mcpClient := Some (SuppliedClient 0) |}.

(* ===================================================================== *)
(** ** Vocabulary for the further properties                              *)
(* ===================================================================== *)

(** The remote method each operation names. *)
Definition tool_name (op : Operation) : string :=
  match op with
  | CreateIndex _ => "qortex_vector_create_index"
  | ListIndexes => "qortex_vector_list_indexes"
  | DescribeIndex _ => "qortex_vector_describe_index"
  | DeleteIndex _ => "qortex_vector_delete_index"
  | Upsert _ => "qortex_vector_upsert"
  | Query _ => "qortex_vector_query"
  | UpdateVector _ => "qortex_vector_update"
  | DeleteVector _ => "qortex_vector_delete"
  | DeleteVectors _ => "qortex_vector_delete_many"
  | TextQuery _ _ => "qortex_query"
  | Explore _ _ => "qortex_explore"
  | GetRules _ => "qortex_rules"
  | Feedback _ _ _ => "qortex_feedback"
  end.

(** The keys of the argument mapping of each operation. *)
Definition wire_keys (op : Operation) : list string :=
  match op with
  | CreateIndex _ => ["index_name"; "dimension"; "metric"]
  | ListIndexes => []
  | DescribeIndex _ | DeleteIndex _ => ["index_name"]
  | Upsert _ => ["index_name"; "vectors"; "metadata"; "ids"]
  | Query _ =>
      ["index_name"; "query_vector"; "top_k"; "filter"; "include_vector"]
  | UpdateVector _ => ["index_name"; "id"; "filter"; "vector"; "metadata"]
  | DeleteVector _ => ["index_name"; "id"]
  | DeleteVectors _ => ["index_name"; "ids"; "filter"]
  | TextQuery _ _ =>
      ["context"; "domains"; "top_k"; "min_confidence"; "mode"]
  | Explore _ _ => ["node_id"; "depth"]
  | GetRules _ =>
      ["domains"; "concept_ids"; "categories"; "include_derived";
       "min_confidence"]
  | Feedback _ _ _ => ["query_id"; "outcomes"; "source"]
  end.


(** The client [connect] builds. *)
Definition new_client : Client := NewClient "mastra-qortex" "0.1.0".

(** A decoded payload that is neither an object nor [null]. *)
Definition bare_payload (v : JsVal) : bool :=
  match v with
  | JBool _ | JNum _ | JStr _ | JArr _ => true
  | _ => false
  end.

Definition is_connect (e : Event) : bool :=
  match e with
  | EvConnect _ _ _ => true
  | _ => false
  end.

Section RunVocabulary.
Context {World : Type} `{McpSdk World} `{JsRuntime}.

(** [m] leaves the whole state as it is. *)
Definition stateless {A} (m : M World A) : Prop :=
  forall s, (m s).2 = s.

(** The transport [connect] builds in the state [s]. *)
Definition transport_for (s : State World) : StdioClientTransport :=
  {| command := default "uvx" (serverCommand (config (mcp s)));
     args := default ["qortex"; "mcp-serve"] (serverArgs (config (mcp s)));
     env := QortexMcpClient.child_env (process_env (world s))
              (serverEnv (config (mcp s))) |}.

(** The fields of the client after [connect] has assigned its transport and
    client, with the flag [b]. *)
Definition opened (b : bool) (s : State World) : QortexMcpClient :=
  {| client := Some new_client;
     transport := Some (transport_for s);
     config := config (mcp s);
     _connected := b |}.

(** What [callTool] hands back for an answer of the SDK. *)
Definition answer_of (resp : Outcome CallToolResult) : Outcome JsVal :=
  match resp with
  | Return env => decode env
  | Throw e => Throw e
  end.

(** The four ways a [callTool] goes, with what it hands back, the fields of
    the client it leaves and the events it appends. *)
Inductive callTool_run (n : string) (a : gmap string JsVal) (s : State World) :
    Outcome JsVal -> QortexMcpClient -> list Event -> Prop :=
  | run_no_client :
      _connected (mcp s) = true -> client (mcp s) = None ->
      callTool_run n a s (Throw (TypeError "callTool")) (mcp s)
        [EvCallTool n a (Throw (TypeError "callTool"))]
  | run_request (c : Client) (resp : Outcome CallToolResult) :
      _connected (mcp s) = true -> client (mcp s) = Some c ->
      callTool_run n a s (answer_of resp) (mcp s)
        [EvRequest c n a resp; EvCallTool n a (answer_of resp)]
  | run_connect_failed (e : Failure) :
      _connected (mcp s) = false ->
      callTool_run n a s (Throw e) (opened false s)
        [EvConnect new_client (transport_for s) (Throw e);
         EvCallTool n a (Throw e)]
  | run_connect_request (resp : Outcome CallToolResult) :
      _connected (mcp s) = false ->
      callTool_run n a s (answer_of resp) (opened true s)
        [EvConnect new_client (transport_for s) (Return tt);
         EvRequest new_client n a resp;
         EvCallTool n a (answer_of resp)].

(** A run of [m] from [s] makes no [callTool] and no request, or one
    [callTool] of the tool [n] and at most one request, for [n] with the
    same mapping. *)
Definition at_most_once {A} (m : M World A) (s : State World) (n : string)
    : Prop :=
  (issued m s = [] /\ forwarded m s = []) \/
  exists a r,
    issued m s = [{| tool := n; arguments := a; answer := r |}] /\
    (forwarded m s = [] \/
     exists c resp,
       forwarded m s =
         [{| via := c; method := n; payload := a; response := resp |}]).
(** A run of [m] from [s] ends in the state [s] itself or in the state its
    [callTool] left. *)
Definition ends_like_callTool {A} (m : M World A) (s : State World) : Prop :=
  (m s).2 = s \/
  exists n a, (m s).2 = (QortexMcpClient.callTool n a s).2.

(** A run of [m] from [s] whose [callTool] failed ends in that failure. *)
Definition passes_failure {A} (m : M World A) (s : State World) : Prop :=
  forall n a e,
    issued m s = [{| tool := n; arguments := a; answer := Throw e |}] ->
    (m s).1 = Throw e.
(** Every [callTool] of a run of [m] from [s] passes a mapping whose keys
    are exactly [ks]. *)
Definition keys_fixed {A} (ks : gset string) (m : M World A)
    (s : State World) : Prop :=
  Forall (fun c => dom (arguments c) = ks) (issued m s).
(** The SDK answers [resp] to the request that [callTool n a] makes from
    [s]: asked through the client at hand when the flag is up, and through
    the new client, after a [connect] that succeeds, when it is down. *)
Definition sdk_answers (s : State World) (n : string)
    (a : gmap string JsVal) (resp : Outcome CallToolResult) : Prop :=
  (_connected (mcp s) = true /\
   exists c, client (mcp s) = Some c /\
             (client_callTool c n a (world s)).1 = resp) \/
  (_connected (mcp s) = false /\
   exists w1,
     client_connect new_client (transport_for s) (world s) = (Return tt, w1) /\
     (client_callTool new_client n a w1).1 = resp).
End RunVocabulary.

(* ===================================================================== *)
(** ** Lemmas on the monad and the history                                *)
(* ===================================================================== *)

Section History.
Context {World : Type} `{McpSdk World} `{JsRuntime}.

Lemma tool_calls_app (h1 h2 : list Event) :
  tool_calls (h1 ++ h2) = tool_calls h1 ++ tool_calls h2.
Proof. unfold tool_calls. apply omap_app. Qed.

Lemma requests_app (h1 h2 : list Event) :
  requests (h1 ++ h2) = requests h1 ++ requests h2.
Proof. unfold requests. apply omap_app. Qed.

Lemma emitted_eq {A} (m : M World A) (s : State World) (evs : list Event) :
  history (m s).2 = history s ++ evs -> emitted m s = evs.
Proof. intros E. unfold emitted. rewrite E. apply drop_app_length. Qed.

Lemma silent_ret {A} (a : A) : silent (ret (World:=World) a).
Proof. intros s. reflexivity. Qed.

Lemma silent_throw {A} (e : Failure) : silent (throw (World:=World) (A:=A) e).
Proof. intros s. reflexivity. Qed.

Lemma silent_lift {A} (r : Outcome A) : silent (lift (World:=World) r).
Proof. intros s. reflexivity. Qed.

Lemma silent_gets {A} (f : State World -> A) : silent (gets f).
Proof. intros s. reflexivity. Qed.

Lemma silent_set_mcp f : silent (set_mcp (World:=World) f).
Proof. intros s. reflexivity. Qed.

Lemma silent_bind {A B} (m : M World A) (k : A -> M World B) :
  silent m -> (forall a, silent (k a)) -> silent (bind m k).
Proof.
  intros Hm Hk s. unfold bind. specialize (Hm s).
  destruct (m s) as [[a|e] s1]; simpl in *.
  - rewrite Hk. exact Hm.
  - exact Hm.
Qed.

End History.

(** Discharges [silent] goals over the continuations of the methods. *)
Ltac silent_step :=
  lazymatch goal with
  | |- silent (bind _ _) => apply silent_bind; [| intros ?]
  | |- silent (ret _) => apply silent_ret
  | |- silent (throw _) => apply silent_throw
  | |- silent (lift _) => apply silent_lift
  | |- silent (gets _) => apply silent_gets
  | |- silent (set_mcp _) => apply silent_set_mcp
  | |- silent (QortexVector.throw_on_error _) =>
      unfold QortexVector.throw_on_error
  | |- silent (if ?b then _ else _) => destruct b
  | |- silent (match ?x with _ => _ end) => destruct x
  end.

Ltac silent_tac := cbv zeta; repeat silent_step.

(** Runs a method body on the state at hand. *)
Ltac run_monad :=
  unfold QortexMcpClient.connect, QortexMcpClient.disconnect,
    QortexMcpClient.connected, QortexMcpClient.set_transport,
    QortexMcpClient.set_client, QortexMcpClient.set_connected,
    bind, ret, throw, lift, gets, set_mcp, sdk in *;
  simpl in *.

Section Client.
Context {World : Type} `{McpSdk World} `{JsRuntime}.

Lemma decode_tail (env : CallToolResult) :
  match content env with
  | None => ret (JObj ∅)
  | Some content =>
      if (length content =? 0)%nat then ret (JObj ∅) else
      let textBlock :=
        find (fun c => String.eqb (type c) "text") content in
      match textBlock with
      | Some {| text := Some t |} =>
          if String.eqb t "" then ret (JObj ∅)
          else lift (JSON_parse t)
      | _ => ret (JObj ∅)
      end
  end = lift (World:=World) (decode env).
Proof.
  unfold decode, is_text. destruct (content env) as [[|p parts]|]; try reflexivity.
  cbv zeta. change (length (p :: parts) =? 0)%nat with false. cbv iota.
  destruct (find _ (p :: parts)) as [[ty [t|]]|]; try reflexivity.
  destruct (String.eqb t ""); reflexivity.
Qed.

(** The history of one [callTool]: connection events and at most one request
    to the SDK, carrying the same name and arguments, then the closing
    [EvCallTool]; the value handed back is the decoded envelope. *)
Lemma callTool_history (n : string) (a : gmap string JsVal) (s : State World) :
  exists pre,
    history (QortexMcpClient.callTool n a s).2 =
      history s ++ pre ++ [EvCallTool n a (QortexMcpClient.callTool n a s).1] /\
    tool_calls pre = [] /\
    ((requests pre = [] /\
      forall v, (QortexMcpClient.callTool n a s).1 <> Return v) \/
     (exists c env,
        requests pre =
          [{| via := c; method := n; payload := a; response := Return env |}] /\
        (QortexMcpClient.callTool n a s).1 = decode env) \/
     (exists c e,
        requests pre =
          [{| via := c; method := n; payload := a; response := Throw e |}] /\
        (QortexMcpClient.callTool n a s).1 = Throw e)).
Proof.
  pose proof (fun env st => f_equal (fun m => m st) (decode_tail env)) as Hd.
  destruct s as [[cl tr cfg b] w h].
  unfold QortexMcpClient.callTool, QortexMcpClient.observed.
  destruct b; [destruct cl as [c|] |]; run_monad.
  - (* connected, with a client *)
    destruct (client_callTool c n a w) as [[env|e] w'] eqn:E; simpl.
    + rewrite Hd. simpl.
      exists [EvRequest c n a (Return env)].
      split; [rewrite <- app_assoc; reflexivity | split; [reflexivity |]].
      right; left. exists c, env. split; reflexivity.
    + exists [EvRequest c n a (Throw e)].
      split; [rewrite <- app_assoc; reflexivity | split; [reflexivity |]].
      right; right. exists c, e. split; reflexivity.
  - (* flagged connected, but no client *)
    exists []. split; [reflexivity | split; [reflexivity |]].
    left. split; [reflexivity | discriminate].
  - (* not connected: connect first *)
    destruct (client_connect _ _ w) as [[[]|e] w1] eqn:Ec; simpl.
    + destruct (client_callTool _ n a w1) as [[env|e] w'] eqn:E; simpl.
      * rewrite Hd. simpl.
        eexists [EvConnect _ _ _; EvRequest _ n a (Return env)].
        split; [rewrite <- !app_assoc; reflexivity | split; [reflexivity |]].
        right; left. eexists _, env. split; reflexivity.
      * eexists [EvConnect _ _ _; EvRequest _ n a (Throw e)].
        split; [rewrite <- !app_assoc; reflexivity | split; [reflexivity |]].
        right; right. eexists _, e. split; reflexivity.
    + eexists [EvConnect _ _ _].
      split; [rewrite <- !app_assoc; reflexivity | split; [reflexivity |]].
      left. split; [reflexivity | discriminate].
Qed.

(** One [callTool] shows in the history as one finished call. *)
Lemma callTool_issued (n : string) (a : gmap string JsVal) (s : State World) :
  issued (QortexMcpClient.callTool n a) s =
    [{| tool := n; arguments := a;
        answer := (QortexMcpClient.callTool n a s).1 |}].
Proof.
  destruct (callTool_history n a s) as (pre & E & T & _).
  unfold issued. rewrite (emitted_eq _ _ _ E), tool_calls_app, T.
  reflexivity.
Qed.

Lemma issued_bind_callTool {B} (n : string) (a : gmap string JsVal)
    (k : JsVal -> M World B) (s : State World) :
  (forall x, silent (k x)) ->
  issued (bind (QortexMcpClient.callTool n a) k) s =
    [{| tool := n; arguments := a;
        answer := (QortexMcpClient.callTool n a s).1 |}].
Proof.
  intros Hk. rewrite <- callTool_issued. unfold issued, emitted, bind.
  destruct (QortexMcpClient.callTool n a s) as [[x|e] s1]; simpl.
  - rewrite Hk. reflexivity.
  - reflexivity.
Qed.

(** A round trip through [callTool] followed by a silent continuation ends in
    what the continuation makes of the payload. *)
Lemma round_trip_callTool {B} (n : string) (a : gmap string JsVal)
    (k : JsVal -> M World B) (s : State World) (v : JsVal) (r : Outcome B) :
  (forall x, silent (k x)) ->
  round_trip (bind (QortexMcpClient.callTool n a) k) s v r ->
  exists s1, QortexMcpClient.callTool n a s = (Return v, s1) /\ r = (k v s1).1.
Proof.
  intros Hk [Hr (n' & a' & Hi)].
  rewrite issued_bind_callTool in Hi by exact Hk.
  unfold bind in Hr.
  destruct (QortexMcpClient.callTool n a s) as [[x|e] s1]; simpl in *.
  - exists s1. inversion Hi; subst. split; reflexivity.
  - inversion Hi.
Qed.

(** Arguments that cannot be built end the run before any call is made. *)
Lemma round_trip_lift {A B} (o : Outcome A) (f : A -> M World B)
    (s : State World) (v : JsVal) (r : Outcome B) :
  round_trip (bind (lift o) f) s v r ->
  exists x, o = Return x /\ round_trip (f x) s v r.
Proof.
  destruct o as [x|e].
  - intros Hrt. exists x. split; [reflexivity | exact Hrt].
  - intros [_ (n & a & Hi)]. unfold issued, emitted, bind, lift in Hi.
    simpl in Hi. rewrite drop_all in Hi. discriminate.
Qed.
End Client.

(** Turns a round trip of an operation into the equation of its result. *)
Ltac round_trip_inv H :=
  cbv zeta in H;
  repeat (let x := fresh "x" in let Ex := fresh "Ex" in
          apply round_trip_lift in H as (x & Ex & H));
  let s1 := fresh "s1" in let Ec := fresh "Ec" in
  apply round_trip_callTool in H as (s1 & Ec & ->); [| intros ?; silent_tac].

Section Claims.
Context {World : Type} `{McpSdk World} `{JsRuntime}.

Lemma throw_on_error_run (o : gmap string JsVal) (st : State World) :
  QortexVector.throw_on_error (JObj o) st =
    (if truthy (prop o "error")
     then Throw (thrown_by_new_Error (prop o "error"))
     else Return tt, st).
Proof.
  unfold QortexVector.throw_on_error, thrown_by_new_Error, bind, lift,
    throw, ret.
  simpl. destruct (truthy (prop o "error")); [| reflexivity].
  destruct (ToString (prop o "error")); reflexivity.
Qed.

Lemma prop_lookup (o : gmap string JsVal) (k : string) (v : JsVal) :
  o !! k = Some v -> prop o k = v.
Proof. intros E. unfold prop. rewrite E. reflexivity. Qed.

Lemma prop_missing (o : gmap string JsVal) (k : string) :
  o !! k = None -> prop o k = JUndefined.
Proof. intros E. unfold prop. rewrite E. reflexivity. Qed.

Lemma prop_null (o : gmap string JsVal) (k : string) :
  prop o k = JNull <-> o !! k = Some JNull.
Proof.
  unfold prop. destruct (o !! k) as [v|]; simpl; split; intros E;
    congruence.
Qed.

Lemma surfaces_error_intro (o : gmap string JsVal) (r : Outcome JsVal)
    (v : JsVal) :
  r = (if truthy (prop o "error")
       then Throw (thrown_by_new_Error (prop o "error"))
       else Return v) ->
  surfaces_error o r.
Proof.
  intros ->. repeat split.
  - intros ->. reflexivity.
  - intros message -> E. unfold thrown_by_new_Error. rewrite E. reflexivity.
  - intros msg E Hne. rewrite (prop_lookup _ _ _ E). simpl.
    destruct (String.eqb_spec msg ""); [contradiction | reflexivity].
  - intros E. rewrite (prop_missing _ _ E). simpl. eauto.
  - intros ->. eauto.
Qed.

(** Closes a goal on the result of an error-checking continuation. *)
Ltac surfaces_tac :=
  eapply surfaces_error_intro;
  unfold bind, lift, ret; simpl;
  rewrite throw_on_error_run;
  match goal with
  | |- context [truthy ?e] => destruct (truthy e)
  end; reflexivity.

(** C1 (amended).  On a round trip that decoded to the mapping [o], each of
    the eight storage operations other than [listIndexes] raises exactly when
    the [error] field of [o] is truthy: what it throws is [new Error] of the
    field, the [Error] whose message is the field as a string (the remote
    string itself when the field is a non-empty string), or the [TypeError]
    of the conversion when the field is an object that does not convert;
    with the field missing (or falsy, as the empty string is) it raises
    nothing.  [listIndexes] does not look at [error]: it returns the
    [indexes] field of the payload. *)
Theorem storage_error_surfacing (op : Operation) (s : State World)
    (o : gmap string JsVal) (r : Outcome JsVal) :
  is_storage op = true ->
  round_trip (perform op) s (JObj o) r ->
  match op with
  | ListIndexes => r = Return (prop o "indexes")
  | _ => surfaces_error o r
  end.
Proof.
  intros Hs Hrt. destruct op; try discriminate Hs; simpl perform in Hrt.
  - unfold QortexVector.createIndex in Hrt. round_trip_inv Hrt. surfaces_tac.
  - unfold QortexVector.listIndexes in Hrt. round_trip_inv Hrt. reflexivity.
  - unfold QortexVector.describeIndex in Hrt. round_trip_inv Hrt. surfaces_tac.
  - unfold QortexVector.deleteIndex in Hrt. round_trip_inv Hrt. surfaces_tac.
  - unfold QortexVector.upsert in Hrt. round_trip_inv Hrt. surfaces_tac.
  - unfold QortexVector.query in Hrt. round_trip_inv Hrt. surfaces_tac.
  - unfold QortexVector.updateVector in Hrt. round_trip_inv Hrt. surfaces_tac.
  - unfold QortexVector.deleteVector in Hrt. round_trip_inv Hrt. surfaces_tac.
  - unfold QortexVector.deleteVectors in Hrt. round_trip_inv Hrt. surfaces_tac.
Qed.

(** What [explore] makes of a decoded mapping. *)
Lemma explore_round_trip (nodeId depth : JsVal) (s : State World)
    (o : gmap string JsVal) (r : Outcome JsVal) :
  round_trip (QortexVector.explore nodeId depth) s (JObj o) r ->
  r = Return (match prop o "node" with JNull => JNull | _ => JObj o end).
Proof.
  intros Hrt. unfold QortexVector.explore in Hrt. round_trip_inv Hrt.
  unfold bind, lift, ret. simpl. destruct (prop o "node"); reflexivity.
Qed.

(** C2 (amended).  None of the four retrieval extensions turns an [error]
    field into a failure: on a round trip that decoded to the mapping [o],
    whatever [o] holds under [error], [textQuery], [getRules] and [feedback]
    return [o] itself and [explore] returns [o] itself unless its [node] is
    [null]. *)
Theorem extension_payload_returned (op : Operation) (s : State World)
    (o : gmap string JsVal) (r : Outcome JsVal) :
  is_extension op = true ->
  round_trip (perform op) s (JObj o) r ->
  r = Return (match op with
              | Explore _ _ =>
                  match prop o "node" with JNull => JNull | _ => JObj o end
              | _ => JObj o
              end).
Proof.
  intros He Hrt. destruct op; try discriminate He; simpl perform in Hrt.
  - unfold QortexVector.textQuery in Hrt. round_trip_inv Hrt. reflexivity.
  - apply explore_round_trip in Hrt. exact Hrt.
  - unfold QortexVector.getRules in Hrt. round_trip_inv Hrt. reflexivity.
  - unfold QortexVector.feedback in Hrt. round_trip_inv Hrt. reflexivity.
Qed.


(** C4 (amended).  On a round trip that decoded to the mapping [o] with no
    truthy [error], [query] returns the [results] field of [o] as it came
    (the empty sequence when the field is missing or [null]): the same items
    in the same order, hence of the same length as the remote sent.  The
    adapter does not cut the sequence to [topK]. *)
Theorem query_results_verbatim (params : gmap string JsVal) (s : State World)
    (o : gmap string JsVal) (r : Outcome JsVal) :
  round_trip (QortexVector.query params) s (JObj o) r ->
  truthy (prop o "error") = false ->
  r = Return (nullish (prop o "results") (JArr [])) /\
  (forall items, o !! "results" = Some (JArr items) ->
     r = Return (JArr items)) /\
  (o !! "results" = None -> r = Return (JArr [])).
Proof.
  intros Hrt He. unfold QortexVector.query in Hrt. round_trip_inv Hrt.
  unfold bind, lift, ret. simpl. rewrite throw_on_error_run, He. simpl.
  repeat split.
  - intros items E. rewrite (prop_lookup _ _ _ E). reflexivity.
  - intros E. rewrite (prop_missing _ _ E). reflexivity.
Qed.

(** What [callTool] hands to the SDK is the name and the mapping it was
    given, at most once. *)
Lemma callTool_forwards (n : string) (a : gmap string JsVal) (s : State World) :
  forwarded (QortexMcpClient.callTool n a) s = [] \/
  exists c r,
    forwarded (QortexMcpClient.callTool n a) s =
      [{| via := c; method := n; payload := a; response := r |}].
Proof.
  destruct (callTool_history n a s) as (pre & E & _ & Hreq).
  unfold forwarded. rewrite (emitted_eq _ _ _ E), requests_app.
  simpl. rewrite app_nil_r.
  destruct Hreq as [[-> _] | [(c & env & -> & _) | (c & e & -> & _)]];
    eauto.
Qed.

Lemma forwarded_bind_callTool {B} (n : string) (a : gmap string JsVal)
    (k : JsVal -> M World B) (s : State World) :
  (forall x, silent (k x)) ->
  forwarded (bind (QortexMcpClient.callTool n a) k) s =
    forwarded (QortexMcpClient.callTool n a) s.
Proof.
  intros Hk. unfold forwarded, emitted, bind.
  destruct (QortexMcpClient.callTool n a s) as [[x|e] s1]; simpl.
  - rewrite Hk. reflexivity.
  - reflexivity.
Qed.

Lemma calls_bind_callTool {B} (n : string) (a : gmap string JsVal)
    (k : JsVal -> M World B) (s : State World)
    (P : gmap string JsVal -> Prop) :
  (forall x, silent (k x)) -> P a ->
  calls (bind (QortexMcpClient.callTool n a) k) s n P.
Proof.
  intros Hk HP. eexists a, _. split; [| split; [| exact HP]].
  - apply issued_bind_callTool. exact Hk.
  - rewrite forwarded_bind_callTool by exact Hk.
    destruct (callTool_forwards n a s) as [-> | (c & r & ->)].
    + constructor.
    + repeat constructor.
Qed.

Lemma optional_sent_intro (supplied : JsVal) (a : gmap string JsVal)
    (key : string) :
  a !! key = Some (nullish supplied JUndefined) -> optional_sent supplied a key.
Proof.
  intros E. split.
  - intros ->. exact E.
  - intros H1 H2. rewrite E. destruct supplied; try reflexivity; contradiction.
Qed.

(** Reduces a goal on the call of an operation to one on its mapping. *)
Ltac calls_tac :=
  cbv zeta; simpl;
  repeat match goal with
         | |- calls (bind (lift (Return _)) _) _ _ _ =>
             change (bind (lift (Return ?x)) ?f) with (f x); cbv beta
         end;
  apply calls_bind_callTool; [intros ?; silent_tac |].

Ltac lookup_tac :=
  repeat split; try apply optional_sent_intro; vm_compute; reflexivity.



(** C8 (amended).  The [depth] of the argument mapping of [explore] is 1
    when the caller supplies none, and otherwise the supplied value as it
    is: the adapter neither rejects nor clamps a depth outside 1-3. *)
Theorem explore_depth_passed_through :
  (forall nodeId (s : State World),
     calls (QortexVector.explore nodeId JUndefined) s "qortex_explore"
       (fun a => a !! "depth" = Some (JNum 1))) /\
  (forall nodeId depth (s : State World), depth <> JUndefined ->
     calls (QortexVector.explore nodeId depth) s "qortex_explore"
       (fun a => a !! "depth" = Some depth)).
Proof.
  split.
  - intros nodeId s. unfold QortexVector.explore. calls_tac. lookup_tac.
  - intros nodeId depth s Hd. unfold QortexVector.explore. calls_tac.
    destruct depth; try contradiction; lookup_tac.
Qed.

(** C5 (amended).  When the SDK answers a [callTool] with the envelope
    [env], the call returns the empty mapping if [env] has no content, no
    parts, or no part tagged as text, and also if its first text part has no
    text or the empty text; if the first text part has a text that is not
    empty, the call ends as [JSON.parse] of that text does: with the parsed
    value as it is, or with the failure of the parse. *)
Theorem callTool_decodes_first_text_part (n : string) (a : gmap string JsVal)
    (s : State World) (c : Client) (env : CallToolResult) :
  forwarded (QortexMcpClient.callTool n a) s =
    [{| via := c; method := n; payload := a; response := Return env |}] ->
  let r := (QortexMcpClient.callTool n a s).1 in
  (content env = None -> r = Return (JObj ∅)) /\
  (content env = Some [] -> r = Return (JObj ∅)) /\
  (forall parts, content env = Some parts -> find is_text parts = None ->
     r = Return (JObj ∅)) /\
  (forall parts b, content env = Some parts ->
     find is_text parts = Some b -> text b = None \/ text b = Some "" ->
     r = Return (JObj ∅)) /\
  (forall parts b t, content env = Some parts ->
     find is_text parts = Some b -> text b = Some t -> t <> "" ->
     r = JSON_parse t).
Proof.
  intros Hf r.
  destruct (callTool_history n a s) as (pre & E & _ & Hreq).
  unfold forwarded in Hf. rewrite (emitted_eq _ _ _ E), requests_app in Hf.
  simpl in Hf. rewrite app_nil_r in Hf.
  assert (Hr : r = decode env).
  { destruct Hreq as [[Hn _] | [(c' & env' & Hq & Hd) | (c' & e & Hq & _)]].
    - rewrite Hn in Hf. discriminate.
    - rewrite Hq in Hf. inversion Hf; subst. exact Hd.
    - rewrite Hq in Hf. inversion Hf. }
  rewrite Hr. unfold decode, is_text. repeat split.
  - intros ->. reflexivity.
  - intros ->. reflexivity.
  - intros parts -> ->. reflexivity.
  - intros parts [ty tx] -> -> [Ht | Ht]; simpl in Ht; subst tx; reflexivity.
  - intros parts [ty tx] t -> -> Ht Hne. simpl in Ht. subst tx.
    destruct (String.eqb_spec t ""); [contradiction | reflexivity].
Qed.

(** [connect] on a connected client: nothing happens. *)
Lemma connect_connected (s : State World) :
  _connected (mcp s) = true ->
  QortexMcpClient.connect s = (Return tt, s).
Proof.
  intros Hc. unfold QortexMcpClient.connect, QortexMcpClient.connected,
    bind, gets, ret.
  rewrite Hc. reflexivity.
Qed.

(** [disconnect] on a client that holds no transport and no client and is
    flagged disconnected: nothing happens. *)
Lemma disconnect_idle (s : State World) :
  transport (mcp s) = None -> client (mcp s) = None ->
  _connected (mcp s) = false ->
  QortexMcpClient.disconnect s = (Return tt, s).
Proof.
  destruct s as [[cl tr cfg b] w h]. simpl. intros -> -> ->. reflexivity.
Qed.

(** A [disconnect] that returns leaves no transport, no client and the
    flag down. *)
Lemma disconnect_returns (s s' : State World) :
  QortexMcpClient.disconnect s = (Return tt, s') ->
  transport (mcp s') = None /\ client (mcp s') = None /\
  _connected (mcp s') = false.
Proof.
  destruct s as [[cl tr cfg b] w h]. destruct tr as [t|]; run_monad.
  - destruct (transport_close t w) as [[[]|e] w1]; simpl; intros E;
      inversion E; subst; simpl; auto.
  - intros E. inversion E; subst; simpl; auto.
Qed.

(** C9 (amended).  [connect] on a connected client changes nothing and
    reaches nobody.  [disconnect] changes nothing and reaches nobody on a
    client that holds no transport and no client object, as one never
    connected or one that [disconnect] has left; it returns whenever there is
    no transport or closing it does not fail; and when it returns the client
    is disconnected and a further [disconnect] changes nothing.  On a client
    that a failed [connect] left disconnected with its transport, it closes
    that transport. *)
Theorem connect_disconnect_idempotent :
  (forall s : State World, _connected (mcp s) = true ->
     QortexMcpClient.connect s = (Return tt, s)) /\
  (forall s : State World,
     transport (mcp s) = None -> client (mcp s) = None ->
     _connected (mcp s) = false ->
     QortexMcpClient.disconnect s = (Return tt, s)) /\
  (forall s : State World,
     (forall t, transport (mcp s) = Some t ->
        (transport_close t (world s)).1 = Return tt) ->
     exists s', QortexMcpClient.disconnect s = (Return tt, s')) /\
  (forall s s' : State World,
     QortexMcpClient.disconnect s = (Return tt, s') ->
     _connected (mcp s') = false /\
     QortexMcpClient.disconnect s' = (Return tt, s')) /\
  (forall (s : State World) t, transport (mcp s) = Some t ->
     emitted QortexMcpClient.disconnect s =
       [EvClose t (transport_close t (world s)).1]).
Proof.
  repeat apply conj.
  - exact connect_connected.
  - exact disconnect_idle.
  - intros [[cl tr cfg b] w h] Hclose. destruct tr as [t|]; run_monad.
    + specialize (Hclose t eq_refl).
      destruct (transport_close t w) as [[[]|e] w1]; simpl in *;
        [eauto | discriminate].
    + eauto.
  - intros s s' E. destruct (disconnect_returns _ _ E) as (Ht & Hc & Hb).
    split; [exact Hb |]. apply disconnect_idle; assumption.
  - intros [[cl tr cfg b] w h] t. simpl. intros ->.
    apply emitted_eq. run_monad.
    destruct (transport_close t w) as [[[]|e] w1]; reflexivity.
Qed.
End Claims.

(* ===================================================================== *)
(** ** The claims on the fixture of the unit tests                        *)
(* ===================================================================== *)

(** The test "throws on error response", and the same payload through
    [listIndexes], which has no such check. *)
Lemma storage_error_surfacing_witness :
  round_trip (perform (CreateIndex docs_384))
    (fixture (answering (mockResponse (error_text "Dimension mismatch"))))
    (JObj (error_payload "Dimension mismatch"))
    (Throw (Error "Dimension mismatch")) /\
  surfaces_error (error_payload "Dimension mismatch")
    (Throw (Error "Dimension mismatch")).
Proof.
  assert (Hrt : round_trip (perform (CreateIndex docs_384))
    (fixture (answering (mockResponse (error_text "Dimension mismatch"))))
    (JObj (error_payload "Dimension mismatch"))
    (Throw (Error "Dimension mismatch"))).
  { split; [vm_compute; reflexivity |].
    eexists "qortex_vector_create_index", _. vm_compute. reflexivity. }
  split; [exact Hrt |].
  exact (storage_error_surfacing (CreateIndex docs_384) _ _ _ eq_refl Hrt).
Defined.

Ltac run_fixture :=
  lazymatch goal with
  | |- round_trip _ _ _ _ =>
      split; [vm_compute; reflexivity
             | eexists _, _; vm_compute; reflexivity]
  | |- calls _ _ _ _ =>
      eexists _, _;
      split; [vm_compute; reflexivity
             | split; vm_compute; repeat constructor]
  | |- _ => vm_compute; repeat split
  end.

(** C1, as stated, fails: [listIndexes] is one of the nine storage
    operations, the payload of its round trip carries an [error] string, and
    the call returns (the [indexes] field, here [undefined]) instead of
    raising. *)
Lemma listIndexes_ignores_error_field :
  is_storage ListIndexes = true /\
  error_payload "Dimension mismatch" !! "error" =
    Some (JStr "Dimension mismatch") /\
  round_trip (perform ListIndexes)
    (fixture (answering (mockResponse (error_text "Dimension mismatch"))))
    (JObj (error_payload "Dimension mismatch"))
    (Return JUndefined).
Proof. split; [reflexivity |]. split; [vm_compute; reflexivity |]. run_fixture. Qed.

(** An [error] that is the empty string is not raised either. *)
Example createIndex_empty_error_string :
  round_trip (perform (CreateIndex docs_384))
    (fixture (answering (mockResponse (error_text ""))))
    (JObj (error_payload ""))
    (Return JUndefined).
Proof. run_fixture. Qed.

(** C2, as stated, fails: the payload of the round trip of [feedback]
    carries an [error] string and the call returns that payload to the
    caller as its result. *)
Lemma feedback_returns_error_payload :
  is_extension (Feedback (JStr "q-1") two_outcomes JUndefined) = true /\
  error_payload "Unknown query_id" !! "error" =
    Some (JStr "Unknown query_id") /\
  round_trip (perform (Feedback (JStr "q-1") two_outcomes JUndefined))
    (fixture (answering (mockResponse (error_text "Unknown query_id"))))
    (JObj (error_payload "Unknown query_id"))
    (Return (JObj (error_payload "Unknown query_id"))).
Proof. split; [reflexivity |]. split; [vm_compute; reflexivity |]. run_fixture. Qed.

Lemma extension_payload_returned_witness :
  round_trip (perform (Feedback (JStr "q-1") two_outcomes JUndefined))
    (fixture (answering (mockResponse (error_text "Unknown query_id"))))
    (JObj (error_payload "Unknown query_id"))
    (Return (JObj (error_payload "Unknown query_id"))) /\
  Return (JObj (error_payload "Unknown query_id")) =
    Return (JObj (error_payload "Unknown query_id")).
Proof.
  assert (Hrt : round_trip
    (perform (Feedback (JStr "q-1") two_outcomes JUndefined))
    (fixture (answering (mockResponse (error_text "Unknown query_id"))))
    (JObj (error_payload "Unknown query_id"))
    (Return (JObj (error_payload "Unknown query_id")))) by run_fixture.
  split; [exact Hrt |].
  exact (extension_payload_returned
           (Feedback (JStr "q-1") two_outcomes JUndefined) _ _ _ eq_refl Hrt).
Defined.


(** C4, as stated, fails: with [topK] 1 in the argument mapping and two
    results in the payload, [query] returns the two results. *)
Lemma query_does_not_cut_to_topK :
  calls (QortexVector.query query_top1)
    (fixture (answering (mockResponse two_results_text)))
    "qortex_vector_query" (fun a => a !! "top_k" = Some (JNum 1)) /\
  exists items,
    (QortexVector.query query_top1
       (fixture (answering (mockResponse two_results_text)))).1 =
      Return (JArr items) /\
    length items = 2 /\
    PrimFloat.ltb 1 (PrimFloat.of_uint63 (Uint63.of_Z (Z.of_nat (length items))))
      = true.
Proof.
  split; [run_fixture |].
  eexists. split; [vm_compute; reflexivity |]. split; reflexivity.
Qed.

Lemma query_results_verbatim_witness :
  round_trip (QortexVector.query query_top1)
    (fixture (answering (mockResponse two_results_text)))
    (JObj (obj [("results", two_results)]))
    (Return two_results) /\
  truthy (prop (obj [("results", two_results)]) "error") = false /\
  Return two_results =
    Return (nullish (prop (obj [("results", two_results)]) "results") (JArr [])).
Proof.
  assert (Hrt : round_trip (QortexVector.query query_top1)
    (fixture (answering (mockResponse two_results_text)))
    (JObj (obj [("results", two_results)]))
    (Return two_results)) by run_fixture.
  assert (He : truthy (prop (obj [("results", two_results)]) "error") = false)
    by (vm_compute; reflexivity).
  split; [exact Hrt |]. split; [exact He |].
  exact (proj1 (query_results_verbatim _ _ _ _ Hrt He)).
Defined.

(** C5, as stated, fails: the first text part of the envelope exists, its
    text is the empty string, which [JSON.parse] rejects, and [callTool]
    returns the empty mapping without parsing it. *)
Lemma callTool_skips_empty_text :
  find is_text [{| type := "text"; text := Some "" |}] =
    Some {| type := "text"; text := Some "" |} /\
  JSON_parse "" = Throw (SyntaxError "") /\
  forwarded (QortexMcpClient.callTool "qortex_vector_list_indexes" (obj []))
    (fixture (answering empty_text_envelope)) =
    [{| via := SuppliedClient 0; method := "qortex_vector_list_indexes";
        payload := obj []; response := Return empty_text_envelope |}] /\
  (QortexMcpClient.callTool "qortex_vector_list_indexes" (obj [])
     (fixture (answering empty_text_envelope))).1 = Return (JObj ∅).
Proof. repeat split; vm_compute; reflexivity. Qed.

Lemma callTool_decodes_first_text_part_witness :
  forwarded (QortexMcpClient.callTool "qortex_explore" (obj []))
    (fixture (answering (mockResponse null_node_text))) =
    [{| via := SuppliedClient 0; method := "qortex_explore";
        payload := obj []; response := Return (mockResponse null_node_text) |}] /\
  (QortexMcpClient.callTool "qortex_explore" (obj [])
     (fixture (answering (mockResponse null_node_text)))).1 =
    JSON_parse null_node_text.
Proof.
  assert (Hf : forwarded (QortexMcpClient.callTool "qortex_explore" (obj []))
    (fixture (answering (mockResponse null_node_text))) =
    [{| via := SuppliedClient 0; method := "qortex_explore";
        payload := obj []; response := Return (mockResponse null_node_text) |}])
    by (vm_compute; reflexivity).
  split; [exact Hf |].
  refine (proj2 (proj2 (proj2 (proj2
    (callTool_decodes_first_text_part _ _ _ _ _ Hf)))) _ _ _ eq_refl eq_refl eq_refl _).
  vm_compute. discriminate.
Defined.



Example upsert_one_mapping :
  calls (QortexVector.upsert upsert_one)
    (fixture (answering (mockResponse "{}")))
    "qortex_vector_upsert"
    (fun a => a !! "metadata" = Some JUndefined /\ a !! "ids" = Some JUndefined /\
              a !! "no_such_key" = None).
Proof. run_fixture. Qed.

(** C8, as stated, fails: [explore] with depth 7 is not rejected, and the
    request the SDK receives carries depth 7, above 3. *)
Lemma explore_forwards_depth_seven :
  (exists c a r,
     forwarded (QortexVector.explore (JStr "sec:oauth") (JNum 7))
       (fixture (answering (mockResponse null_node_text))) =
       [{| via := c; method := "qortex_explore"; payload := a; response := r |}] /\
     a !! "depth" = Some (JNum 7)) /\
  PrimFloat.ltb 3 7 = true /\
  (QortexVector.explore (JStr "sec:oauth") (JNum 7)
     (fixture (answering (mockResponse null_node_text)))).1 = Return JNull.
Proof.
  split; [| split; vm_compute; reflexivity].
  eexists _, _, _. split; vm_compute; reflexivity.
Qed.

Lemma explore_depth_passed_through_witness :
  JNum 7 <> JUndefined /\
  calls (QortexVector.explore (JStr "sec:oauth") (JNum 7))
    (fixture (answering (mockResponse null_node_text)))
    "qortex_explore" (fun a => a !! "depth" = Some (JNum 7)).
Proof.
  assert (Hd : JNum 7 <> JUndefined) by discriminate.
  split; [exact Hd |].
  exact (proj2 explore_depth_passed_through (JStr "sec:oauth") (JNum 7) _ Hd).
Defined.

(** C9, as stated, fails: after a [connect] that the SDK rejected the client
    is disconnected; [disconnect] on it reaches the SDK, to close the
    transport the failed [connect] left, and clears that field. *)
Lemma disconnect_after_failed_connect_closes :
  (QortexMcpClient.connect (spawning failing_spawn)).1 =
    Throw (SdkError "spawn uvx ENOENT") /\
  _connected (mcp (QortexMcpClient.connect (spawning failing_spawn)).2) = false /\
  exists t,
    transport (mcp (QortexMcpClient.connect (spawning failing_spawn)).2) =
      Some t /\
    emitted QortexMcpClient.disconnect
      (QortexMcpClient.connect (spawning failing_spawn)).2 =
      [EvClose t (Return tt)] /\
    transport
      (mcp (QortexMcpClient.disconnect
              (QortexMcpClient.connect (spawning failing_spawn)).2).2) = None.
Proof.
  split; [vm_compute; reflexivity |]. split; [vm_compute; reflexivity |].
  eexists. split; [vm_compute; reflexivity |].
  split; vm_compute; reflexivity.
Qed.

(** On the fixture, whose client is adopted as connected, [connect] is a
    no-op. *)
Lemma connect_disconnect_idempotent_witness :
  _connected (mcp (fixture (answering (mockResponse "{}")))) = true /\
  QortexMcpClient.connect (fixture (answering (mockResponse "{}"))) =
    (Return tt, fixture (answering (mockResponse "{}"))).
Proof.
  assert (Hc : _connected (mcp (fixture (answering (mockResponse "{}")))) = true)
    by reflexivity.
  split; [exact Hc |].
  exact (proj1 connect_disconnect_idempotent _ Hc).
Defined.

(** A client that was never connected, and one that was and is disconnected
    twice. *)
Example disconnect_twice :
  QortexMcpClient.disconnect (spawning (answering (mockResponse "{}"))) =
    (Return tt, spawning (answering (mockResponse "{}"))) /\
  emitted (bind QortexMcpClient.connect (fun _ =>
           bind QortexMcpClient.disconnect (fun _ =>
           QortexMcpClient.disconnect)))
    (spawning (answering (mockResponse "{}"))) =
    [EvConnect (NewClient "mastra-qortex" "0.1.0")
       {| command := "uvx"; args := ["qortex"; "mcp-serve"];
          env := {[ "PATH" := "/usr/bin" ]} |} (Return tt);
     EvClose
       {| command := "uvx"; args := ["qortex"; "mcp-serve"];
          env := {[ "PATH" := "/usr/bin" ]} |} (Return tt)].
Proof. split; vm_compute; reflexivity. Qed.

(* ===================================================================== *)
(** ** Further properties of the client                                   *)
(* ===================================================================== *)

Section ClientRuns.
Context {World : Type} `{McpSdk World} `{JsRuntime}.

(** Every [callTool] goes one of the four ways. *)
Lemma callTool_runs (n : string) (a : gmap string JsVal) (s : State World) :
  callTool_run n a s (QortexMcpClient.callTool n a s).1
    (mcp (QortexMcpClient.callTool n a s).2)
    (emitted (QortexMcpClient.callTool n a) s).
Proof.
  pose proof (fun env st =>
    f_equal (fun m => m st) (decode_tail (World:=World) env)) as Hd.
  destruct s as [[cl tr cfg b] w h]. unfold emitted.
  unfold QortexMcpClient.callTool, QortexMcpClient.observed.
  destruct b; [destruct cl as [c|] |]; run_monad.
  - destruct (client_callTool c n a w) as [[env|e] w'] eqn:E; simpl.
    + rewrite Hd. simpl. rewrite <- app_assoc, drop_app_length.
      exact (run_request n a
               {| mcp := {| client := Some c; transport := tr; config := cfg;
                          _connected := true |};
                world := w; history := h |} c (Return env) eq_refl eq_refl).
    + rewrite <- app_assoc, drop_app_length.
      exact (run_request n a
               {| mcp := {| client := Some c; transport := tr; config := cfg;
                          _connected := true |};
                world := w; history := h |} c (Throw e) eq_refl eq_refl).
  - rewrite drop_app_length.
    exact (run_no_client n a
             {| mcp := {| client := None; transport := tr; config := cfg;
                          _connected := true |};
                world := w; history := h |} eq_refl eq_refl).
  - destruct (client_connect _ _ w) as [[[]|e] w1] eqn:Ec; simpl.
    + destruct (client_callTool _ n a w1) as [[env|e] w'] eqn:E; simpl.
      * rewrite Hd. simpl. rewrite <- !app_assoc, drop_app_length.
        exact (run_connect_request n a
                 {| mcp := {| client := cl; transport := tr; config := cfg;
                          _connected := false |};
                world := w; history := h |} (Return env) eq_refl).
      * rewrite <- !app_assoc, drop_app_length.
        exact (run_connect_request n a
                 {| mcp := {| client := cl; transport := tr; config := cfg;
                          _connected := false |};
                world := w; history := h |} (Throw e) eq_refl).
    + rewrite <- !app_assoc, drop_app_length.
      exact (run_connect_failed n a
               {| mcp := {| client := cl; transport := tr; config := cfg;
                          _connected := false |};
                world := w; history := h |} e eq_refl).
Qed.

(** The client connects on first use, once, with the configured command (by
    default [uvx qortex mcp-serve]) and before any request; a client flagged
    connected opens nothing. *)
Theorem callTool_connects_lazily (n : string) (a : gmap string JsVal)
    (s : State World) :
  (_connected (mcp s) = true ->
     List.filter is_connect (emitted (QortexMcpClient.callTool n a) s) = []) /\
  (_connected (mcp s) = false ->
     exists r rest,
       emitted (QortexMcpClient.callTool n a) s =
         EvConnect new_client (transport_for s) r :: rest /\
       List.filter is_connect rest = [] /\
       Forall (fun q => via q = new_client)
         (forwarded (QortexMcpClient.callTool n a) s)).
Proof.
  unfold forwarded.
  destruct (callTool_runs n a s) as [Hc Hn | c resp Hc Hcl | e Hc | resp Hc];
    split; intros Hb; try congruence; try reflexivity.
  - eexists _, _. split; [reflexivity |]. split; [reflexivity | constructor].
  - eexists _, _. split; [reflexivity |]. split; [reflexivity |].
    repeat constructor.
Qed.


(** A [connect] that fails inside [callTool] fails the call with the same
    failure; no request is sent and the client stays disconnected, so the
    next call connects again. *)
Theorem failed_connect_fails_the_call (n : string) (a : gmap string JsVal)
    (s : State World) (c : Client) (t : StdioClientTransport) (e : Failure) :
  In (EvConnect c t (Throw e)) (emitted (QortexMcpClient.callTool n a) s) ->
  (QortexMcpClient.callTool n a s).1 = Throw e /\
  forwarded (QortexMcpClient.callTool n a) s = [] /\
  _connected (mcp (QortexMcpClient.callTool n a s).2) = false.
Proof.
  unfold forwarded.
  destruct (callTool_runs n a s) as [Hc Hn | c' resp Hc Hcl | e' Hc | resp Hc];
    simpl; intros Hin.
  - destruct Hin as [Hin | []]. discriminate.
  - destruct Hin as [Hin | [Hin | []]]; discriminate.
  - destruct Hin as [Hin | [Hin | []]]; [| discriminate].
    inversion Hin; subst. repeat split.
  - destruct Hin as [Hin | [Hin | [Hin | []]]]; discriminate.
Qed.

(** A request the SDK rejects fails the call with the rejection itself, and
    the client stays connected: a failed call tears nothing down. *)
Theorem rejected_request_keeps_connection (n : string)
    (a : gmap string JsVal) (s : State World) (c : Client) (e : Failure) :
  forwarded (QortexMcpClient.callTool n a) s =
    [{| via := c; method := n; payload := a; response := Throw e |}] ->
  (QortexMcpClient.callTool n a s).1 = Throw e /\
  _connected (mcp (QortexMcpClient.callTool n a s).2) = true /\
  client (mcp (QortexMcpClient.callTool n a s).2) = Some c.
Proof.
  unfold forwarded.
  destruct (callTool_runs n a s) as [Hc Hn | c' resp Hc Hcl | e' Hc | resp Hc];
    simpl; intros Hf; try discriminate.
  - inversion Hf; subst. repeat split; assumption.
  - inversion Hf; subst. repeat split.
Qed.

Lemma find_first_text (pre rest : list ContentBlock) (b : ContentBlock) :
  Forall (fun p => type p <> "text") pre -> type b = "text" ->
  find is_text (pre ++ b :: rest) = Some b.
Proof.
  intros Hpre Hb. induction Hpre as [|p pre Hp _ IH]; simpl.
  - unfold is_text. rewrite Hb. reflexivity.
  - unfold is_text at 1. destruct (String.eqb_spec (type p) "text");
      [contradiction | exact IH].
Qed.

(** Of the parts of an envelope only the first one tagged as text counts:
    parts of other types before it are skipped, and whatever follows it,
    further text parts included, is not read. *)
Theorem callTool_reads_first_text_part_only (n : string)
    (a : gmap string JsVal) (s : State World) (c : Client)
    (pre rest : list ContentBlock) (b : ContentBlock) (t : string) :
  forwarded (QortexMcpClient.callTool n a) s =
    [{| via := c; method := n; payload := a;
        response := Return {| content := Some (pre ++ b :: rest) |} |}] ->
  Forall (fun p => type p <> "text") pre ->
  type b = "text" -> text b = Some t -> t <> "" ->
  (QortexMcpClient.callTool n a s).1 = JSON_parse t.
Proof.
  intros Hf Hpre Hb Ht Hne.
  assert (Hd : decode {| content := Some (pre ++ b :: rest) |} = JSON_parse t).
  { unfold decode. simpl. rewrite (find_first_text _ _ _ Hpre Hb).
    destruct b as [ty tx]. simpl in Ht. subst tx.
    destruct (String.eqb_spec t ""); [contradiction | reflexivity]. }
  unfold forwarded in Hf.
  destruct (callTool_runs n a s) as [Hc Hn | c' resp Hc Hcl | e' Hc | resp Hc];
    simpl in Hf; try discriminate; inversion Hf; subst; exact Hd.
Qed.

(** [disconnect] on a client built around a supplied [mcpClient] closes
    nothing and lets go of the supplied client: the next [callTool] spawns
    the configured command and talks through the client it builds then. *)
Theorem disconnect_drops_supplied_client (cfg : QortexMcpClientConfig)
    (c : Client) (w : World) (h : list Event) (n : string)
    (a : gmap string JsVal) :
  mcpClient cfg = Some c ->
  let s := {| mcp := QortexMcpClient.constructor cfg; world := w;
              history := h |} in
  QortexMcpClient.disconnect s =
    (Return tt,
     {| mcp := {| client := None; transport := None; config := cfg;
                  _connected := false |};
        world := w; history := h |}) /\
  exists r rest,
    emitted (bind QortexMcpClient.disconnect
               (fun _ => QortexMcpClient.callTool n a)) s =
      EvConnect new_client (transport_for s) r :: rest /\
    Forall (fun q => via q = new_client)
      (forwarded (bind QortexMcpClient.disconnect
                    (fun _ => QortexMcpClient.callTool n a)) s).
Proof.
  intros Hcfg s.
  assert (Hd : QortexMcpClient.disconnect s =
    (Return tt,
     {| mcp := {| client := None; transport := None; config := cfg;
                  _connected := false |};
        world := w; history := h |})).
  { unfold s, QortexMcpClient.constructor. rewrite Hcfg. reflexivity. }
  split; [exact Hd |].
  set (s1 := {| mcp := {| client := None; transport := None; config := cfg;
                          _connected := false |};
                world := w; history := h |}) in *.
  assert (He : emitted (bind QortexMcpClient.disconnect
                          (fun _ => QortexMcpClient.callTool n a)) s =
               emitted (QortexMcpClient.callTool n a) s1).
  { unfold emitted, bind. rewrite Hd. reflexivity. }
  unfold forwarded. rewrite He.
  assert (Ht : transport_for s1 = transport_for s).
  { unfold transport_for, s, s1, QortexMcpClient.constructor.
    rewrite Hcfg. reflexivity. }
  rewrite <- Ht.
  destruct (callTool_runs n a s1) as [Hc Hn | c' resp Hc Hcl | e' Hc | resp Hc];
    try discriminate Hc.
  - eexists _, _. split; [reflexivity | constructor].
  - eexists _, _. split; [reflexivity | repeat constructor].
Qed.

Lemma child_env_process (penv : list (string * option string))
    (k v : string) :
  NoDup penv.*1 ->
  QortexMcpClient.child_env penv None !! k = Some v <-> (k, Some v) ∈ penv.
Proof.
  unfold QortexMcpClient.child_env.
  induction penv as [|[k' ov] penv IH] using rev_ind; intros Hnd.
  - simpl. rewrite lookup_empty. split; [discriminate |].
    intros Hin. inversion Hin.
  - rewrite fmap_app in Hnd. apply NoDup_app in Hnd as (Hnd & Hfresh & _).
    rewrite foldl_snoc. simpl. rewrite elem_of_app, list_elem_of_singleton.
    assert (Hk' : forall x, (k', x) ∈ penv -> False).
    { intros x Hin. apply (Hfresh k'); [| simpl; left].
      apply list_elem_of_fmap. exists (k', x). split; [reflexivity | exact Hin]. }
    destruct ov as [v'|].
    + destruct (decide (k' = k)) as [->|Hne].
      * rewrite lookup_insert_eq. split.
        -- intros E. inversion E; subst. right. reflexivity.
        -- intros [Hin | E]; [destruct (Hk' _ Hin) | congruence].
      * rewrite lookup_insert_ne by exact Hne. rewrite (IH Hnd). split.
        -- intros Hin. left. exact Hin.
        -- intros [Hin | E]; [exact Hin | congruence].
    + rewrite (IH Hnd). split.
      * intros Hin. left. exact Hin.
      * intros [Hin | E]; [exact Hin | congruence].
Qed.

(** The environment of the child is the process environment overridden by
    [serverEnv]: a name [serverEnv] binds has that value; any other name has
    the value the process environment gives it, and none when the process
    environment leaves it undefined. *)
Theorem child_env_overrides_process_env (penv : list (string * option string))
    (senv : option (gmap string string)) (k : string) :
  NoDup penv.*1 ->
  (forall e v, senv = Some e -> e !! k = Some v ->
     QortexMcpClient.child_env penv senv !! k = Some v) /\
  (senv = None \/ (exists e, senv = Some e /\ e !! k = None) ->
     forall v, QortexMcpClient.child_env penv senv !! k = Some v <->
               (k, Some v) ∈ penv).
Proof.
  intros Hnd. split.
  - intros e v -> Hv. unfold QortexMcpClient.child_env.
    apply lookup_union_Some_l. exact Hv.
  - intros [-> | (e & -> & Hk)] v.
    + apply child_env_process. exact Hnd.
    + rewrite <- (child_env_process penv k v Hnd).
      unfold QortexMcpClient.child_env. rewrite lookup_union_r by exact Hk.
      reflexivity.
Qed.
(** What the SDK answers is what [callTool] decodes and hands back, and the
    request it answered is the one in the history. *)
Lemma callTool_answered (n : string) (a : gmap string JsVal) (s : State World)
    (resp : Outcome CallToolResult) :
  sdk_answers s n a resp ->
  (QortexMcpClient.callTool n a s).1 = answer_of resp /\
  exists c,
    forwarded (QortexMcpClient.callTool n a) s =
      [{| via := c; method := n; payload := a; response := resp |}].
Proof.
  pose proof (fun env st =>
    f_equal (fun m => m st) (decode_tail (World:=World) env)) as Hd.
  destruct s as [[cl tr cfg b] w h]. unfold sdk_answers, forwarded, emitted.
  unfold QortexMcpClient.callTool, QortexMcpClient.observed, transport_for.
  simpl.
  intros [(Hb & c & Hc & Hresp) | (Hb & w1 & Hcon & Hresp)]; subst b.
  - subst cl. run_monad.
    destruct (client_callTool c n a w) as [[env|e] w'] eqn:E; simpl in *;
      subst resp.
    + rewrite Hd. simpl. rewrite <- app_assoc, drop_app_length.
      split; [reflexivity | exists c; reflexivity].
    + rewrite <- app_assoc, drop_app_length.
      split; [reflexivity | exists c; reflexivity].
  - run_monad. unfold new_client in *. rewrite Hcon. simpl.
    destruct (client_callTool _ n a w1) as [[env|e] w'] eqn:E; simpl in *;
      subst resp.
    + rewrite Hd. simpl. rewrite <- !app_assoc, drop_app_length.
      split; [reflexivity | eexists; reflexivity].
    + rewrite <- !app_assoc, drop_app_length.
      split; [reflexivity | eexists; reflexivity].
Qed.

(** C3 (amended).  When the SDK answers the request of [explore] with an
    envelope that decodes to [v], that request is the one [explore] makes,
    and [explore] returns [null] exactly when [v] is a mapping that binds
    [node] to [null]; it returns any other mapping as it came, with whatever
    node, edges, neighbors and rules it carries, one with no fields
    included; a payload that is an array, a string, a number or a boolean
    comes back as it is; and on a payload that is [null] it throws the
    [TypeError] of reading [node]. *)
Theorem explore_returns_null_or_the_payload (nodeId depth : JsVal)
    (s : State World) (env : CallToolResult) (v : JsVal) :
  sdk_answers s "qortex_explore"
    (obj [("node_id", nodeId); ("depth", param_default depth (JNum 1))])
    (Return env) ->
  decode env = Return v ->
  let r := (QortexVector.explore nodeId depth s).1 in
  (exists c,
     forwarded (QortexVector.explore nodeId depth) s =
       [{| via := c; method := "qortex_explore";
           payload := obj [("node_id", nodeId);
                           ("depth", param_default depth (JNum 1))];
           response := Return env |}]) /\
  (r = Return JNull <-> exists o, v = JObj o /\ o !! "node" = Some JNull) /\
  (forall o, v = JObj o -> o !! "node" <> Some JNull -> r = Return (JObj o)) /\
  (bare_payload v = true -> r = Return v) /\
  (v = JNull -> r = Throw (TypeError "node")).
Proof.
  intros Hans Hdec r. subst r.
  destruct (callTool_answered _ _ _ _ Hans) as (Hr & c & Hf).
  simpl in Hr. rewrite Hdec in Hr.
  unfold QortexVector.explore. cbv zeta. split.
  - exists c. rewrite forwarded_bind_callTool by (intros ?; silent_tac).
    exact Hf.
  - unfold bind at 1 3 5 7.
    destruct (QortexMcpClient.callTool "qortex_explore" _ s) as [r0 s1].
    simpl in Hr. subst r0. unfold bind, lift, ret.
    destruct v as [| |b|x|t|l|o]; simpl.
    + repeat split; try discriminate.
      intros (o & E & _). discriminate.
    + repeat split; try discriminate.
      intros (o & E & _). discriminate.
    + repeat split; try discriminate.
      intros (o & E & _). discriminate.
    + repeat split; try discriminate.
      intros (o & E & _). discriminate.
    + repeat split; try discriminate.
      intros (o & E & _). discriminate.
    + repeat split; try discriminate.
      intros (o & E & _). discriminate.
    + repeat split; try discriminate.
      * intros E. exists o. split; [reflexivity |]. apply prop_null.
        destruct (prop o "node"); simpl in E; congruence.
      * intros (o' & E & Hn). inversion E; subst o'.
        rewrite (proj2 (prop_null o "node") Hn). reflexivity.
      * intros o' E Hn. inversion E; subst o'.
        rewrite <- prop_null in Hn.
        destruct (prop o "node"); simpl; try reflexivity. contradiction.
Qed.
End ClientRuns.

(* ===================================================================== *)
(** ** Further properties of the adapter                                  *)
(* ===================================================================== *)

Section AdapterRuns.
Context {World : Type} `{McpSdk World} `{JsRuntime}.

Lemma stateless_ret {A} (a : A) : stateless (ret (World:=World) a).
Proof. intros s. reflexivity. Qed.

Lemma stateless_throw {A} (e : Failure) :
  stateless (throw (World:=World) (A:=A) e).
Proof. intros s. reflexivity. Qed.

Lemma stateless_lift {A} (r : Outcome A) : stateless (lift (World:=World) r).
Proof. intros s. reflexivity. Qed.

Lemma stateless_bind {A B} (m : M World A) (k : A -> M World B) :
  stateless m -> (forall a, stateless (k a)) -> stateless (bind m k).
Proof.
  intros Hm Hk s. unfold bind. specialize (Hm s).
  destruct (m s) as [[a|e] s1]; simpl in *; subst s1.
  - apply Hk.
  - reflexivity.
Qed.

Lemma stateless_silent {A} (m : M World A) : stateless m -> silent m.
Proof. intros Hm s. rewrite Hm. reflexivity. Qed.

(** The state and the events of an operation are those of its [callTool]. *)
Lemma bind_callTool_state {B} (n : string) (a : gmap string JsVal)
    (k : JsVal -> M World B) (s : State World) :
  (forall x, stateless (k x)) ->
  (bind (QortexMcpClient.callTool n a) k s).2 =
    (QortexMcpClient.callTool n a s).2.
Proof.
  intros Hk. unfold bind.
  destruct (QortexMcpClient.callTool n a s) as [[x|e] s1]; simpl.
  - apply Hk.
  - reflexivity.
Qed.

Lemma at_most_once_bind_callTool {B} (n : string) (a : gmap string JsVal)
    (k : JsVal -> M World B) (s : State World) :
  (forall x, silent (k x)) ->
  at_most_once (bind (QortexMcpClient.callTool n a) k) s n.
Proof.
  intros Hk. right. eexists a, _. split.
  - apply issued_bind_callTool. exact Hk.
  - rewrite forwarded_bind_callTool by exact Hk.
    destruct (callTool_forwards n a s) as [-> | (c & r & ->)]; eauto.
Qed.

Lemma at_most_once_bind_lift {A B} (o : Outcome A) (f : A -> M World B)
    (s : State World) (n : string) :
  (forall x, at_most_once (f x) s n) ->
  at_most_once (bind (lift o) f) s n.
Proof.
  intros Hf. destruct o as [x|e].
  - exact (Hf x).
  - left. unfold issued, forwarded, emitted, bind, lift. simpl.
    rewrite drop_all. split; reflexivity.
Qed.
Lemma ends_like_bind_callTool {B} (n : string) (a : gmap string JsVal)
    (k : JsVal -> M World B) (s : State World) :
  (forall x, stateless (k x)) ->
  ends_like_callTool (bind (QortexMcpClient.callTool n a) k) s.
Proof.
  intros Hk. right. exists n, a. apply bind_callTool_state. exact Hk.
Qed.

Lemma ends_like_bind_lift {A B} (o : Outcome A) (f : A -> M World B)
    (s : State World) :
  (forall x, ends_like_callTool (f x) s) ->
  ends_like_callTool (bind (lift o) f) s.
Proof.
  intros Hf. destruct o as [x|e]; [exact (Hf x) | left; reflexivity].
Qed.

Lemma passes_failure_bind_callTool {B} (n : string) (a : gmap string JsVal)
    (k : JsVal -> M World B) (s : State World) :
  (forall x, silent (k x)) ->
  passes_failure (bind (QortexMcpClient.callTool n a) k) s.
Proof.
  intros Hk n' a' e Hi. rewrite issued_bind_callTool in Hi by exact Hk.
  unfold bind.
  destruct (QortexMcpClient.callTool n a s) as [[x|e'] s1]; simpl in *;
    inversion Hi; reflexivity.
Qed.

Lemma passes_failure_bind_lift {A B} (o : Outcome A) (f : A -> M World B)
    (s : State World) :
  (forall x, passes_failure (f x) s) ->
  passes_failure (bind (lift o) f) s.
Proof.
  intros Hf. destruct o as [x|e]; [exact (Hf x) |].
  intros n a e' Hi. unfold issued, emitted, bind, lift in Hi. simpl in Hi.
  rewrite drop_all in Hi. discriminate.
Qed.
Lemma keys_fixed_bind_callTool {B} (ks : gset string) (n : string)
    (a : gmap string JsVal) (k : JsVal -> M World B) (s : State World) :
  (forall x, silent (k x)) -> dom a = ks ->
  keys_fixed ks (bind (QortexMcpClient.callTool n a) k) s.
Proof.
  intros Hk Hd. unfold keys_fixed. rewrite issued_bind_callTool by exact Hk.
  repeat constructor. exact Hd.
Qed.

Lemma keys_fixed_bind_lift {A B} (ks : gset string) (o : Outcome A)
    (f : A -> M World B) (s : State World) :
  (forall x, keys_fixed ks (f x) s) ->
  keys_fixed ks (bind (lift o) f) s.
Proof.
  intros Hf. destruct o as [x|e]; [exact (Hf x) |].
  unfold keys_fixed, issued, emitted, bind, lift. simpl.
  rewrite drop_all. constructor.
Qed.
End AdapterRuns.

Ltac stateless_step :=
  lazymatch goal with
  | |- stateless (bind _ _) => apply stateless_bind; [| intros ?]
  | |- stateless (ret _) => apply stateless_ret
  | |- stateless (throw _) => apply stateless_throw
  | |- stateless (lift _) => apply stateless_lift
  | |- stateless (QortexVector.throw_on_error _) =>
      unfold QortexVector.throw_on_error
  | |- stateless (if ?b then _ else _) => destruct b
  | |- stateless (match ?x with _ => _ end) => destruct x
  end.

Ltac stateless_tac := cbv zeta; repeat stateless_step.

(** Reduces a goal on the call of an operation to one on its mapping. *)
Ltac mapping_tac :=
  cbv zeta; simpl;
  repeat match goal with
         | |- calls (bind (lift (Return _)) _) _ _ _ =>
             change (bind (lift (Return ?x)) ?f) with (f x); cbv beta
         end;
  apply calls_bind_callTool; [intros ?; silent_tac |].

Ltac bound_tac := repeat split; vm_compute; reflexivity.

Tactic Notation "unfold_operation" "in" hyp(H) :=
  unfold perform, QortexVector.createIndex, QortexVector.listIndexes,
    QortexVector.describeIndex, QortexVector.deleteIndex,
    QortexVector.upsert, QortexVector.query, QortexVector.updateVector,
    QortexVector.deleteVector, QortexVector.deleteVectors,
    QortexVector.textQuery, QortexVector.explore, QortexVector.getRules,
    QortexVector.feedback in H;
  cbv zeta in H.

Ltac unfold_operation :=
  unfold perform, QortexVector.createIndex, QortexVector.listIndexes,
    QortexVector.describeIndex, QortexVector.deleteIndex,
    QortexVector.upsert, QortexVector.query, QortexVector.updateVector,
    QortexVector.deleteVector, QortexVector.deleteVectors,
    QortexVector.textQuery, QortexVector.explore, QortexVector.getRules,
    QortexVector.feedback;
  cbv zeta.

Section Adapter.
Context {World : Type} `{McpSdk World} `{JsRuntime}.

(** An operation makes at most one [callTool], of the method fixed for it,
    and at most one request reaches the SDK, with the same name and mapping:
    nothing is retried and nothing else is called. *)
Theorem one_call_per_operation (op : Operation) (s : State World) :
  at_most_once (perform op) s (tool_name op).
Proof.
  destruct op; unfold_operation; simpl tool_name;
    repeat (apply at_most_once_bind_lift; intros ?);
    apply at_most_once_bind_callTool; intros ?; silent_tac.
Qed.
(** A failure of [callTool] (a failed connect, a rejected request, a text
    that does not parse) ends the operation as it is: no operation catches,
    wraps or replaces it. *)
Theorem operations_pass_failures_unchanged (op : Operation) (s : State World)
    (n : string) (a : gmap string JsVal) (e : Failure) :
  issued (perform op) s =
    [{| tool := n; arguments := a; answer := Throw e |}] ->
  (perform op s).1 = Throw e.
Proof.
  revert n a e. change (passes_failure (perform op) s).
  destruct op; unfold_operation;
    repeat (apply passes_failure_bind_lift; intros ?);
    apply passes_failure_bind_callTool; intros ?; silent_tac.
Qed.

Lemma perform_ends_like_callTool (op : Operation) (s : State World) :
  ends_like_callTool (perform op) s.
Proof.
  destruct op; unfold_operation;
    repeat (apply ends_like_bind_lift; intros ?);
    apply ends_like_bind_callTool; intros ?; stateless_tac.
Qed.

(** On a connected client an operation changes none of the fields of the
    client and opens no connection: the only thing that crosses the boundary
    is its request. *)
Theorem operations_keep_connected_client (op : Operation) (s : State World) :
  _connected (mcp s) = true ->
  mcp (perform op s).2 = mcp s /\
  List.filter is_connect (emitted (perform op) s) = [] /\
  emitted (perform op) s =
    map (fun q => EvRequest (via q) (method q) (payload q) (response q))
      (forwarded (perform op) s) ++
    map (fun c => EvCallTool (tool c) (arguments c) (answer c))
      (issued (perform op) s).
Proof.
  intros Hc. unfold issued, forwarded, emitted.
  destruct (perform_ends_like_callTool op s) as [-> | (n & a & ->)].
  - rewrite drop_all. repeat split.
  - fold (emitted (QortexMcpClient.callTool n a) s).
    destruct (callTool_runs n a s) as [_ Hn | c resp _ Hcl | e Hf | resp Hf];
      try congruence; repeat split.
Qed.
(** The argument mapping of an operation has the keys fixed for it and no
    other, whatever the caller passed: a field the operation does not name
    never reaches the remote, and a field left unset is still a key. *)
Theorem argument_mapping_has_fixed_keys (op : Operation) (s : State World) :
  keys_fixed (list_to_set (wire_keys op)) (perform op) s.
Proof.
  destruct op; unfold_operation; simpl wire_keys;
    repeat (apply keys_fixed_bind_lift; intros ?);
    (apply keys_fixed_bind_callTool; [intros ?; silent_tac |]);
    unfold obj; simpl; rewrite ?dom_insert_L, ?dom_empty_L; set_solver.
Qed.
(** The fields a caller must give reach the remote unchanged under their
    snake-case names. *)
Theorem caller_fields_renamed :
  (forall p (s : State World),
     calls (QortexVector.createIndex p) s "qortex_vector_create_index"
       (fun a => a !! "index_name" = Some (prop p "indexName") /\
                 a !! "dimension" = Some (prop p "dimension"))) /\
  (forall p (s : State World),
     calls (QortexVector.describeIndex p) s "qortex_vector_describe_index"
       (fun a => a !! "index_name" = Some (prop p "indexName"))) /\
  (forall p (s : State World),
     calls (QortexVector.deleteIndex p) s "qortex_vector_delete_index"
       (fun a => a !! "index_name" = Some (prop p "indexName"))) /\
  (forall p (s : State World),
     calls (QortexVector.upsert p) s "qortex_vector_upsert"
       (fun a => a !! "index_name" = Some (prop p "indexName") /\
                 a !! "vectors" = Some (prop p "vectors"))) /\
  (forall p (s : State World),
     calls (QortexVector.query p) s "qortex_vector_query"
       (fun a => a !! "index_name" = Some (prop p "indexName") /\
                 a !! "query_vector" = Some (prop p "queryVector"))) /\
  (forall p u (s : State World), prop p "update" = JObj u ->
     calls (QortexVector.updateVector p) s "qortex_vector_update"
       (fun a => a !! "index_name" = Some (prop p "indexName"))) /\
  (forall p (s : State World),
     calls (QortexVector.deleteVector p) s "qortex_vector_delete"
       (fun a => a !! "index_name" = Some (prop p "indexName") /\
                 a !! "id" = Some (prop p "id"))) /\
  (forall p (s : State World),
     calls (QortexVector.deleteVectors p) s "qortex_vector_delete_many"
       (fun a => a !! "index_name" = Some (prop p "indexName"))) /\
  (forall c options (s : State World),
     options = JUndefined \/ (exists o, options = JObj o) ->
     calls (QortexVector.textQuery c options) s "qortex_query"
       (fun a => a !! "context" = Some c)) /\
  (forall nodeId depth (s : State World),
     calls (QortexVector.explore nodeId depth) s "qortex_explore"
       (fun a => a !! "node_id" = Some nodeId)) /\
  (forall q outcomes source (s : State World),
     calls (QortexVector.feedback q outcomes source) s "qortex_feedback"
       (fun a => a !! "query_id" = Some q /\
                 a !! "outcomes" = Some outcomes)).
Proof.
  repeat apply conj.
  - intros p s. unfold QortexVector.createIndex. mapping_tac. bound_tac.
  - intros p s. unfold QortexVector.describeIndex. mapping_tac. bound_tac.
  - intros p s. unfold QortexVector.deleteIndex. mapping_tac. bound_tac.
  - intros p s. unfold QortexVector.upsert. mapping_tac. bound_tac.
  - intros p s. unfold QortexVector.query. mapping_tac. bound_tac.
  - intros p u s E. unfold QortexVector.updateVector. rewrite E.
    mapping_tac. bound_tac.
  - intros p s. unfold QortexVector.deleteVector. mapping_tac. bound_tac.
  - intros p s. unfold QortexVector.deleteVectors. mapping_tac. bound_tac.
  - intros c options s [-> | (o & ->)]; unfold QortexVector.textQuery;
      mapping_tac; bound_tac.
  - intros nodeId depth s. unfold QortexVector.explore. mapping_tac. bound_tac.
  - intros q outcomes source s. unfold QortexVector.feedback. mapping_tac.
    bound_tac.
Qed.


(** Arguments the adapter cannot read end the call before anything is sent:
    [updateVector] without an [update] object, and [textQuery] or [getRules]
    with [null] options, throw a [TypeError] and leave the state, the world
    and the history as they were. *)
Theorem unreadable_arguments_fail_before_the_call :
  (forall p (s : State World),
     prop p "update" = JUndefined \/ prop p "update" = JNull ->
     QortexVector.updateVector p s = (Throw (TypeError "vector"), s)) /\
  (forall c (s : State World),
     QortexVector.textQuery c JNull s = (Throw (TypeError "domains"), s)) /\
  (forall s : State World,
     QortexVector.getRules JNull s = (Throw (TypeError "domains"), s)).
Proof.
  repeat apply conj.
  - intros p s [E | E]; unfold QortexVector.updateVector; cbv zeta;
      rewrite E; reflexivity.
  - reflexivity.
  - reflexivity.
Qed.

(** A decoded payload that is [null]: the operations that read a field of
    the payload throw the [TypeError] of that read, and [textQuery],
    [getRules] and [feedback], which read none, return [null]. *)
Theorem null_payload_raises_type_error (op : Operation) (s : State World)
    (r : Outcome JsVal) :
  round_trip (perform op) s JNull r ->
  r = match op with
      | TextQuery _ _ | GetRules _ | Feedback _ _ _ => Return JNull
      | ListIndexes => Throw (TypeError "indexes")
      | Explore _ _ => Throw (TypeError "node")
      | _ => Throw (TypeError "error")
      end.
Proof.
  intros Hrt. destruct op; unfold_operation in Hrt; round_trip_inv Hrt;
    reflexivity.
Qed.

(** A decoded payload that is an array, a string, a number or a boolean
    carries no [error] for the adapter: every storage operation returns as
    on success, with the fields it reads taken as [undefined]. *)
Theorem bare_payload_read_as_success (op : Operation) (s : State World)
    (v : JsVal) (r : Outcome JsVal) :
  bare_payload v = true -> is_storage op = true ->
  round_trip (perform op) s v r ->
  r = Return (match op with
              | DescribeIndex _ =>
                  JObj (obj [("dimension", JUndefined);
                             ("count", JUndefined);
                             ("metric", JUndefined)])
              | Query _ => JArr []
              | _ => JUndefined
              end).
Proof.
  intros Hv Hs Hrt.
  destruct op; try discriminate Hs; unfold_operation in Hrt;
    round_trip_inv Hrt; destruct v; try discriminate Hv; reflexivity.
Qed.

(** On success [describeIndex] returns an object of exactly three keys,
    [dimension], [count] and [metric], each with what the payload binds it
    to ([undefined] when the payload does not); any other field of the
    payload is dropped. *)
Theorem describeIndex_projects_three_fields (p : gmap string JsVal)
    (s : State World) (o : gmap string JsVal) (r : Outcome JsVal) :
  round_trip (QortexVector.describeIndex p) s (JObj o) r ->
  truthy (prop o "error") = false ->
  exists d,
    r = Return (JObj d) /\
    dom d = list_to_set ["dimension"; "count"; "metric"] /\
    d !! "dimension" = Some (prop o "dimension") /\
    d !! "count" = Some (prop o "count") /\
    d !! "metric" = Some (prop o "metric").
Proof.
  intros Hrt He. unfold QortexVector.describeIndex in Hrt.
  round_trip_inv Hrt. unfold bind, lift, ret. simpl.
  rewrite throw_on_error_run, He. simpl.
  eexists. split; [reflexivity |]. split.
  - unfold obj. simpl. rewrite ?dom_insert_L, ?dom_empty_L. set_solver.
  - repeat split; vm_compute; reflexivity.
Qed.
End Adapter.

(* ===================================================================== *)
(** ** The further properties on the fixture of the unit tests            *)
(* ===================================================================== *)

Lemma callTool_connects_lazily_witness :
  _connected (mcp (spawning (answering (mockResponse "{}")))) = false /\
  exists r rest,
    emitted (QortexMcpClient.callTool "qortex_vector_list_indexes" (obj []))
      (spawning (answering (mockResponse "{}"))) =
      EvConnect new_client
        (transport_for (spawning (answering (mockResponse "{}")))) r :: rest /\
    List.filter is_connect rest = [] /\
    Forall (fun q => via q = new_client)
      (forwarded (QortexMcpClient.callTool "qortex_vector_list_indexes" (obj []))
         (spawning (answering (mockResponse "{}")))).
Proof.
  split; [reflexivity |].
  exact (proj2 (callTool_connects_lazily "qortex_vector_list_indexes" (obj [])
                  (spawning (answering (mockResponse "{}")))) eq_refl).
Defined.


Lemma failed_connect_fails_the_call_witness :
  In (EvConnect new_client (transport_for (spawning failing_spawn))
        (Throw (SdkError "spawn uvx ENOENT")))
     (emitted (QortexMcpClient.callTool "qortex_vector_list_indexes" (obj []))
        (spawning failing_spawn)) /\
  (QortexMcpClient.callTool "qortex_vector_list_indexes" (obj [])
     (spawning failing_spawn)).1 = Throw (SdkError "spawn uvx ENOENT").
Proof.
  assert (Hin : In
    (EvConnect new_client (transport_for (spawning failing_spawn))
       (Throw (SdkError "spawn uvx ENOENT")))
    (emitted (QortexMcpClient.callTool "qortex_vector_list_indexes" (obj []))
       (spawning failing_spawn))) by (vm_compute; left; reflexivity).
  split; [exact Hin |].
  exact (proj1 (failed_connect_fails_the_call _ _ _ _ _ _ Hin)).
Defined.

Lemma rejected_request_keeps_connection_witness :
  forwarded (QortexMcpClient.callTool "qortex_vector_list_indexes" (obj []))
    (fixture rejecting) =
    [{| via := SuppliedClient 0; method := "qortex_vector_list_indexes";
        payload := obj [];
        response := Throw (SdkError "Connection closed") |}] /\
  (QortexMcpClient.callTool "qortex_vector_list_indexes" (obj [])
     (fixture rejecting)).1 = Throw (SdkError "Connection closed").
Proof.
  assert (Hf : forwarded
    (QortexMcpClient.callTool "qortex_vector_list_indexes" (obj []))
    (fixture rejecting) =
    [{| via := SuppliedClient 0; method := "qortex_vector_list_indexes";
        payload := obj [];
        response := Throw (SdkError "Connection closed") |}])
    by (vm_compute; reflexivity).
  split; [exact Hf |].
  exact (proj1 (rejected_request_keeps_connection _ _ _ _ _ Hf)).
Defined.

Lemma callTool_reads_first_text_part_only_witness :
  forwarded (QortexMcpClient.callTool "qortex_explore" (obj []))
    (fixture (answering mixed_envelope)) =
    [{| via := SuppliedClient 0; method := "qortex_explore";
        payload := obj []; response := Return mixed_envelope |}] /\
  (QortexMcpClient.callTool "qortex_explore" (obj [])
     (fixture (answering mixed_envelope))).1 = JSON_parse null_node_text.
Proof.
  assert (Hf : forwarded (QortexMcpClient.callTool "qortex_explore" (obj []))
    (fixture (answering mixed_envelope)) =
    [{| via := SuppliedClient 0; method := "qortex_explore";
        payload := obj []; response := Return mixed_envelope |}])
    by (vm_compute; reflexivity).
  split; [exact Hf |].
  refine (callTool_reads_first_text_part_only "qortex_explore" (obj [])
            (fixture (answering mixed_envelope)) (SuppliedClient 0)
            [{| type := "image"; text := None |}]
            [{| type := "text"; text := Some "{}" |}]
            {| type := "text"; text := Some null_node_text |}
            null_node_text Hf _ eq_refl eq_refl _).
  - repeat constructor. simpl. discriminate.
  - vm_compute. discriminate.
Defined.

Lemma disconnect_drops_supplied_client_witness :
  mcpClient supplied_config = Some (SuppliedClient 0) /\
  QortexMcpClient.disconnect (fixture (answering (mockResponse "{}"))) =
    (Return tt,
     {| mcp := {| client := None; transport := None;
                  config := supplied_config; _connected := false |};
        world := answering (mockResponse "{}"); history := [] |}).
Proof.
  split; [reflexivity |].
  exact (proj1 (disconnect_drops_supplied_client supplied_config
                  (SuppliedClient 0) (answering (mockResponse "{}")) []
                  "qortex_vector_list_indexes" (obj []) eq_refl)).
Defined.

Lemma child_env_overrides_process_env_witness :
  NoDup [("PATH", Some "/usr/bin"); ("EDITOR", None)].*1 /\
  (QortexMcpClient.child_env
     [("PATH", Some "/usr/bin"); ("EDITOR", None)]
     (Some {[ "PATH" := "/opt/bin" ]}) !! "PATH" = Some "/opt/bin").
Proof.
  assert (Hnd : NoDup [("PATH", Some "/usr/bin"); ("EDITOR", @None string)].*1).
  { simpl. apply NoDup_cons. split; [| apply NoDup_singleton].
    rewrite list_elem_of_singleton. discriminate. }
  split; [exact Hnd |].
  refine (proj1 (child_env_overrides_process_env _ _ "PATH" Hnd)
            {[ "PATH" := "/opt/bin" ]} "/opt/bin" eq_refl _).
  vm_compute. reflexivity.
Defined.

Lemma operations_pass_failures_unchanged_witness :
  issued (perform (CreateIndex docs_384)) (spawning failing_spawn) =
    [{| tool := "qortex_vector_create_index";
        arguments := obj [("index_name", JStr "docs");
                          ("dimension", JNum 384);
                          ("metric", JStr "cosine")];
        answer := Throw (SdkError "spawn uvx ENOENT") |}] /\
  (perform (CreateIndex docs_384) (spawning failing_spawn)).1 =
    Throw (SdkError "spawn uvx ENOENT").
Proof.
  assert (Hi : issued (perform (CreateIndex docs_384)) (spawning failing_spawn) =
    [{| tool := "qortex_vector_create_index";
        arguments := obj [("index_name", JStr "docs");
                          ("dimension", JNum 384);
                          ("metric", JStr "cosine")];
        answer := Throw (SdkError "spawn uvx ENOENT") |}])
    by (vm_compute; reflexivity).
  split; [exact Hi |].
  exact (operations_pass_failures_unchanged _ _ _ _ _ Hi).
Defined.

Lemma operations_keep_connected_client_witness :
  _connected (mcp (fixture (answering (mockResponse two_results_text)))) = true /\
  mcp (perform (Query query_top1)
         (fixture (answering (mockResponse two_results_text)))).2 =
    mcp (fixture (answering (mockResponse two_results_text))).
Proof.
  split; [reflexivity |].
  exact (proj1 (operations_keep_connected_client (Query query_top1)
                  (fixture (answering (mockResponse two_results_text)))
                  eq_refl)).
Defined.

Lemma caller_fields_renamed_witness :
  prop update_reviewed "update" =
    JObj (obj [("metadata", JObj (obj [("reviewed", JBool true)]))]) /\
  calls (QortexVector.updateVector update_reviewed)
    (fixture (answering (mockResponse "{}"))) "qortex_vector_update"
    (fun a => a !! "index_name" = Some (prop update_reviewed "indexName")).
Proof.
  assert (E : prop update_reviewed "update" =
    JObj (obj [("metadata", JObj (obj [("reviewed", JBool true)]))]))
    by (vm_compute; reflexivity).
  split; [exact E |].
  exact (proj1 (proj2 (proj2 (proj2 (proj2 (proj2 caller_fields_renamed)))))
           update_reviewed _ (fixture (answering (mockResponse "{}"))) E).
Defined.


Lemma unreadable_arguments_fail_before_the_call_witness :
  (prop docs_384 "update" = JUndefined \/ prop docs_384 "update" = JNull) /\
  QortexVector.updateVector docs_384 (fixture (answering (mockResponse "{}"))) =
    (Throw (TypeError "vector"), fixture (answering (mockResponse "{}"))).
Proof.
  assert (E : prop docs_384 "update" = JUndefined \/
              prop docs_384 "update" = JNull)
    by (left; vm_compute; reflexivity).
  split; [exact E |].
  exact (proj1 unreadable_arguments_fail_before_the_call docs_384
           (fixture (answering (mockResponse "{}"))) E).
Defined.

Lemma null_payload_raises_type_error_witness :
  round_trip (perform (DescribeIndex docs_384))
    (fixture (answering (mockResponse "null"))) JNull
    (Throw (TypeError "error")) /\
  Throw (TypeError "error") = Throw (A:=JsVal) (TypeError "error").
Proof.
  assert (Hrt : round_trip (perform (DescribeIndex docs_384))
    (fixture (answering (mockResponse "null"))) JNull
    (Throw (TypeError "error"))) by run_fixture.
  split; [exact Hrt |].
  exact (null_payload_raises_type_error (DescribeIndex docs_384) _ _ Hrt).
Defined.

Lemma bare_payload_read_as_success_witness :
  bare_payload (JArr []) = true /\
  round_trip (perform (H0:=wider_runtime) (Query query_top1))
    (fixture (answering (mockResponse "[]"))) (JArr []) (Return (JArr [])) /\
  Return (JArr []) = Return (JArr []).
Proof.
  assert (Hrt : round_trip
    (perform (H0:=wider_runtime) (Query query_top1))
    (fixture (answering (mockResponse "[]"))) (JArr []) (Return (JArr [])))
    by run_fixture.
  split; [reflexivity |]. split; [exact Hrt |].
  exact (bare_payload_read_as_success (H0:=wider_runtime) (Query query_top1)
           (fixture (answering (mockResponse "[]"))) (JArr [])
           (Return (JArr [])) eq_refl eq_refl Hrt).
Defined.

(** The test "returns index stats": the extra field of the payload is not in
    the result. *)
Lemma describeIndex_projects_three_fields_witness :
  round_trip
    (QortexVector.describeIndex (H0:=wider_runtime) docs_384)
    (fixture (answering (mockResponse stats_text))) (JObj stats_payload)
    (Return (JObj (obj [("dimension", JNum 384); ("count", JNum 42);
                        ("metric", JStr "cosine")]))) /\
  exists d,
    Return (JObj (obj [("dimension", JNum 384); ("count", JNum 42);
                       ("metric", JStr "cosine")])) = Return (JObj d) /\
    dom d = list_to_set ["dimension"; "count"; "metric"] /\
    d !! "dimension" = Some (prop stats_payload "dimension") /\
    d !! "count" = Some (prop stats_payload "count") /\
    d !! "metric" = Some (prop stats_payload "metric").
Proof.
  assert (Hrt : round_trip
    (QortexVector.describeIndex (H0:=wider_runtime) docs_384)
    (fixture (answering (mockResponse stats_text))) (JObj stats_payload)
    (Return (JObj (obj [("dimension", JNum 384); ("count", JNum 42);
                        ("metric", JStr "cosine")])))) by run_fixture.
  split; [exact Hrt |].
  exact (describeIndex_projects_three_fields (H0:=wider_runtime) docs_384
           (fixture (answering (mockResponse stats_text))) stats_payload
           _ Hrt eq_refl).
Defined.

(** C3, as stated, fails on two decoded responses: on a payload that is
    [null], [explore] neither returns [null] nor a node, it throws; and on a
    payload that is a mapping with no fields, which a remote may send for a
    node it never had, it returns that empty mapping. *)
Lemma explore_throws_on_null_returns_empty_mapping :
  decode (mockResponse "null") = Return JNull /\
  (QortexVector.explore (JStr "nonexistent") JUndefined
     (fixture (answering (mockResponse "null")))).1 =
    Throw (TypeError "node") /\
  decode (mockResponse "{}") = Return (JObj ∅) /\
  (QortexVector.explore (JStr "nonexistent") JUndefined
     (fixture (answering (mockResponse "{}")))).1 = Return (JObj ∅).
Proof. repeat split; vm_compute; reflexivity. Qed.

(** The test "returns null for missing node". *)
Lemma explore_returns_null_or_the_payload_witness :
  sdk_answers (fixture (answering (mockResponse null_node_text)))
    "qortex_explore"
    (obj [("node_id", JStr "nonexistent");
          ("depth", param_default JUndefined (JNum 1))])
    (Return (mockResponse null_node_text)) /\
  decode (mockResponse null_node_text) = Return (JObj (obj [("node", JNull)])) /\
  ((QortexVector.explore (JStr "nonexistent") JUndefined
      (fixture (answering (mockResponse null_node_text)))).1 = Return JNull <->
   exists o, JObj (obj [("node", JNull)]) = JObj o /\
             o !! "node" = Some JNull).
Proof.
  assert (Ha : sdk_answers (fixture (answering (mockResponse null_node_text)))
    "qortex_explore"
    (obj [("node_id", JStr "nonexistent");
          ("depth", param_default JUndefined (JNum 1))])
    (Return (mockResponse null_node_text))).
  { left. split; [reflexivity |]. exists (SuppliedClient 0).
    split; reflexivity. }
  assert (Hd : decode (mockResponse null_node_text) =
               Return (JObj (obj [("node", JNull)])))
    by (vm_compute; reflexivity).
  split; [exact Ha |]. split; [exact Hd |].
  exact (proj1 (proj2 (explore_returns_null_or_the_payload
                         (JStr "nonexistent") JUndefined _ _ _ Ha Hd))).
Defined.

(** An [error] that is an object with a [toString] of its own does not
    become a message: [new Error] throws a [TypeError]; one that is an array
    is joined. *)
Example error_objects_and_arrays :
  (QortexVector.throw_on_error
     (JObj (obj [("error", JObj (obj [("toString", JNum 1)]))]))
     (fixture (answering (mockResponse "{}")))).1 =
    Throw (TypeError "toString") /\
  (QortexVector.throw_on_error
     (JObj (obj [("error", JObj (obj [("code", JNum 1)]))]))
     (fixture (answering (mockResponse "{}")))).1 =
    Throw (Error "[object Object]") /\
  (QortexVector.throw_on_error
     (JObj (obj [("error", JArr [JStr "a"; JNull; JStr "b"])]))
     (fixture (answering (mockResponse "{}")))).1 =
    Throw (Error "a,,b").
Proof. repeat split; vm_compute; reflexivity. Qed.
